(** * traefik-aws-lambda-plugin: the HTTP <-> Lambda envelope mapping

    A shallow embedding of [src/main.go] (package [awslambdaplugin]) and the
    properties of its request/response mapping.

    Go strings are byte strings and are modelled by [string]; a [[]byte] is a
    [list ascii].  Go maps with string keys are [gmap string V]; a map that
    may be [nil] is an [option] of one.  Slices are lists ([len] of a nil
    slice is 0, so the nil slice and the empty slice are both [[]]). *)

From Stdlib Require Import ZArith Ascii String List Lia.
From Stdlib Require Import Floats.SpecFloat.
From stdpp Require Import base tactics option list strings gmap fin_maps pretty.

Set Warnings "-register-all".

Local Open Scope string_scope.
Local Open Scope Z_scope.

(** ** Package [strconv]: the number formatting used by the coercion *)

Module strconv.

(** [strconv.FormatInt(i, 10)]: base 10, a leading [-] for negatives, no
    padding. *)
Definition FormatInt_10 (i : Z) : string := pretty i.

(** [strconv.FormatUint(u, 10)]. *)
Definition FormatUint_10 (u : Z) : string := pretty (Z.to_N u).

(** Round the rational [n / d] ([0 < d], [0 <= n]) to the nearest integer,
    ties to even: what [decimal.Round] does on the exact decimal expansion
    of a float. *)
Definition roundHalfEven (n d : Z) : Z :=
  let q := n / d in
  let r := n mod d in
  if 2 * r <? d then q
  else if d <? 2 * r then q + 1
  else if Z.even q then q else q + 1.

(** The magnitude [m * 2^e], scaled by [10^prec] and rounded. *)
Definition scaledDigits (m : positive) (e : Z) (prec : nat) : Z :=
  if 0 <=? e
  then Z.pos m * 2 ^ e * 10 ^ Z.of_nat prec
  else roundHalfEven (Z.pos m * 10 ^ Z.of_nat prec) (2 ^ (- e)).

(** The [n] low decimal digits of [q], most significant first, zero padded. *)
Fixpoint fraction (n : nat) (q : Z) : string :=
  match n with
  | O => ""
  | S n' =>
      fraction n' (q / 10) +:+ String (pretty_N_char (Z.to_N (q mod 10))) ""
  end.

(** [%f] layout: sign, integer part, and [prec] fractional digits. *)
Definition fmtF (neg : bool) (q : Z) (prec : nat) : string :=
  (if neg then "-" else "")
    +:+ pretty (q / 10 ^ Z.of_nat prec)
    +:+ match prec with
        | O => ""
        | S _ => "." +:+ fraction prec q
        end.

(** [strconv.FormatFloat(f, 'f', prec, bitSize)] for [0 <= prec].  The
    value is converted exactly (the decimal expansion of a binary float is
    finite) and rounded to [prec] fractional digits.  [bitSize] only
    rounds [f] to a [float32] first, which is the identity on a value that
    was widened from a [float32], as [reflect.Value.Float] does. *)
Definition FormatFloat_f (f : spec_float) (prec : nat) : string :=
  match f with
  | S754_nan => "NaN"
  | S754_infinity false => "+Inf"
  | S754_infinity true => "-Inf"
  | S754_zero s => fmtF s 0 prec
  | S754_finite s m e => fmtF s (scaledDigits m e prec) prec
  end.

End strconv.

(** ** Package [reflect]: kinds and dynamically typed values *)

Module reflect.

(** [reflect.Kind]. *)
Inductive Kind : Set :=
| Invalid | Bool
| Int | Int8 | Int16 | Int32 | Int64
| Uint | Uint8 | Uint16 | Uint32 | Uint64 | Uintptr
| Float32 | Float64 | Complex64 | Complex128
| Array | Chan | Func | Interface | Map | Pointer | Slice | String
| Struct | UnsafePointer.

#[global] Instance Kind_eq_dec : EqDecision Kind.
Proof. solve_decision. Defined.

(** A non-nil [interface{}] value, as far as the coercion looks into it:
    its kind and, for numbers, strings and slices, its contents.  For a
    slice, [elem] is [TypeOf(f).Elem().Kind()] and [xs] are the elements
    [s.Index(i).Interface()] for [0 <= i < s.Len()].  (The nil interface has
    no type: [reflect.TypeOf(nil).Kind()] is a nil dereference; it is not a
    [Value].) *)
Inductive Value : Type :=
| IntVal (k : Kind) (i : Z)
| UintVal (k : Kind) (u : Z)
| FloatVal (k : Kind) (x : spec_float)
| StringVal (s : string)
| SliceVal (elem : Kind) (xs : list Value)
| OtherVal (k : Kind).

(** [reflect.TypeOf(f).Kind()] *)
Definition KindOf (f : Value) : Kind :=
  match f with
  | IntVal k _ | UintVal k _ | FloatVal k _ | OtherVal k => k
  | StringVal _ => String
  | SliceVal _ _ => Slice
  end.

(** [reflect.ValueOf(f).Int()], [.Uint()], [.Float()], [.String()]: the
    payload, read only after the kind was checked. *)
Definition Int_ (f : Value) : Z :=
  match f with IntVal _ i => i | _ => 0 end.
Definition Uint_ (f : Value) : Z :=
  match f with UintVal _ u => u | _ => 0 end.
Definition Float_ (f : Value) : spec_float :=
  match f with FloatVal _ x => x | _ => S754_zero false end.
Definition String_ (f : Value) : string :=
  match f with StringVal s => s | _ => "" end.

Definition isInt (k : Kind) : bool :=
  match k with Int | Int8 | Int16 | Int32 | Int64 => true | _ => false end.
Definition isUint (k : Kind) : bool :=
  match k with
  | Uint | Uint8 | Uint16 | Uint32 | Uint64 | Uintptr => true
  | _ => false
  end.
Definition isFloat (k : Kind) : bool :=
  match k with Float32 | Float64 => true | _ => false end.

(** Width in bits of an integer kind ([int], [uint] and [uintptr] are 64
    bits wide on the platforms the plugin runs on). *)
Definition bits (k : Kind) : Z :=
  match k with
  | Int8 | Uint8 => 8
  | Int16 | Uint16 => 16
  | Int32 | Uint32 => 32
  | _ => 64
  end.

(** Values that a Go program can build: the payload fits the kind, and the
    elements of a slice have the slice's element kind (any kind, in a slice
    of interfaces). *)
Fixpoint wellTyped (f : Value) : bool :=
  match f with
  | IntVal k i =>
      isInt k && (- 2 ^ (bits k - 1) <=? i) && (i <? 2 ^ (bits k - 1))
  | UintVal k u => isUint k && (0 <=? u) && (u <? 2 ^ bits k)
  | FloatVal k x =>
      match k with
      | Float32 => valid_binary 24 128 x
      | Float64 => valid_binary 53 1024 x
      | _ => false
      end
  | StringVal _ => true
  | SliceVal elem xs =>
      forallb
        (fun x =>
           (bool_decide (elem = Interface) || bool_decide (KindOf x = elem))
           && wellTyped x)
        xs
  | OtherVal k =>
      negb (isInt k || isUint k || isFloat k
            || bool_decide (k = String) || bool_decide (k = Slice)
            || bool_decide (k = Invalid) || bool_decide (k = Interface))
  end.

End reflect.

(** ** Value coercion ([valueToString], [valuesToStrings]) *)

(** The two functions call each other: [valueToString] on a slice asks
    [valuesToStrings], which converts every element with [valueToString].
    [valuesToStringsWith] is the body of [valuesToStrings] with that inner
    call as a parameter. *)
Definition valuesToStringsWith (valueToString : reflect.Value -> string * bool)
    (f : reflect.Value) : list string * bool :=
  match f with
  | reflect.SliceVal elem s =>
      match elem with
      | reflect.Int | reflect.Int8 | reflect.Int16 | reflect.Int32 | reflect.Int64
      | reflect.Uint | reflect.Uint8 | reflect.Uint16 | reflect.Uint32
      | reflect.Float32 | reflect.Float64 | reflect.String =>
          (fold_left
             (fun v x =>
                let '(conv, valid) := valueToString x in
                if negb valid then v else (v ++ [conv])%list)
             s [],
           true)
      | _ => ([], false)
      end
  | _ => ([], false) (* typeof.Kind() != reflect.Slice *)
  end.

Fixpoint valueToString (f : reflect.Value) : string * bool :=
  match reflect.KindOf f with
  | reflect.Int | reflect.Int8 | reflect.Int16 | reflect.Int32 | reflect.Int64 =>
      (strconv.FormatInt_10 (reflect.Int_ f), true)
  | reflect.Uint | reflect.Uint8 | reflect.Uint16 | reflect.Uint32
  | reflect.Uint64 =>
      (strconv.FormatUint_10 (reflect.Uint_ f), true)
  | reflect.Float32 => (strconv.FormatFloat_f (reflect.Float_ f) 4, true)
  | reflect.Float64 => (strconv.FormatFloat_f (reflect.Float_ f) 4, true)
  | reflect.String => (reflect.String_ f, true)
  | reflect.Slice =>
      let '(t, valid) := valuesToStringsWith valueToString f in
      if negb valid || negb (bool_decide (length t = 1%nat)) then ("", false)
      else (hd "" t, true)
  | _ => ("", false)
  end.

Definition valuesToStrings (f : reflect.Value) : list string * bool :=
  valuesToStringsWith valueToString f.

(** The element kinds that [valuesToStrings] lets through. *)
Definition sequenceElem (k : reflect.Kind) : bool :=
  match k with
  | reflect.Int | reflect.Int8 | reflect.Int16 | reflect.Int32 | reflect.Int64
  | reflect.Uint | reflect.Uint8 | reflect.Uint16 | reflect.Uint32
  | reflect.Float32 | reflect.Float64 | reflect.String => true
  | _ => false
  end.

(** The kinds of scalar that [valueToString] converts. *)
Definition scalarKind (k : reflect.Kind) : bool :=
  match k with
  | reflect.Int | reflect.Int8 | reflect.Int16 | reflect.Int32 | reflect.Int64
  | reflect.Uint | reflect.Uint8 | reflect.Uint16 | reflect.Uint32
  | reflect.Uint64
  | reflect.Float32 | reflect.Float64 | reflect.String => true
  | _ => false
  end.


(** *** The canonical form of a number, from the specification

    The specification calls the decimal form of an integer canonical: base
    10, no leading zeros, no padding of the sign.  [decimalValue] reads such
    a numeral: it gives the number that the string stands for, and nothing
    for a string that is not of this form (the empty string, a digit string
    that begins with a zero but is not [0], a sign without a number after
    it or before zero, any other character). *)





(** The [float64] and the [float32] nearest to the decimal 3.14159. *)
Definition float64_3_14159 : spec_float :=
  S754_finite false 7074231776675438 (-51).
Definition float32_3_14159 : spec_float :=
  S754_finite false 13176784 (-22).

(** ** Package [encoding/base64]: [StdEncoding] *)

Module base64.

Definition encodeStd : string :=
  "ABCDEFGHIJKLMNOPQRSTUVWXYZabcdefghijklmnopqrstuvwxyz0123456789+/".

Definition padChar : ascii := "="%char.

Definition byteZ (b : ascii) : Z := Z.of_N (N_of_ascii b).
Definition Zbyte (z : Z) : ascii := ascii_of_N (Z.to_N (Z.land z 255)).

(** [enc.encode[i]] *)
Definition encode (i : Z) : ascii :=
  default padChar (String.get (Z.to_nat i) encodeStd).

(** [enc.Encode]: three source bytes make four characters; a last block of
    one or two bytes is padded with [=]. *)
Fixpoint Encode (src : list ascii) : string :=
  match src with
  | [] => ""
  | [b0] =>
      let val := Z.shiftl (byteZ b0) 16 in
      String (encode (Z.land (Z.shiftr val 18) 63))
        (String (encode (Z.land (Z.shiftr val 12) 63))
           (String padChar (String padChar "")))
  | [b0; b1] =>
      let val := Z.lor (Z.shiftl (byteZ b0) 16) (Z.shiftl (byteZ b1) 8) in
      String (encode (Z.land (Z.shiftr val 18) 63))
        (String (encode (Z.land (Z.shiftr val 12) 63))
           (String (encode (Z.land (Z.shiftr val 6) 63))
              (String padChar "")))
  | b0 :: b1 :: b2 :: rest =>
      let val :=
        Z.lor (Z.lor (Z.shiftl (byteZ b0) 16) (Z.shiftl (byteZ b1) 8))
          (byteZ b2) in
      String (encode (Z.land (Z.shiftr val 18) 63))
        (String (encode (Z.land (Z.shiftr val 12) 63))
           (String (encode (Z.land (Z.shiftr val 6) 63))
              (String (encode (Z.land val 63)) (Encode rest))))
  end.

(** The streaming encoder of [base64.NewEncoder(base64.StdEncoding, &buf)]:
    [buf] holds the zero to two bytes that do not fill a block yet, [out]
    is what was written to the [bytes.Buffer] so far. *)
Record encoder := { buf : list ascii; out : string }.

Definition NewEncoder : encoder := {| buf := []; out := "" |}.

(** [encoder.Write(p)]: complete the pending block with the first bytes of
    [p], encode the whole blocks of the rest, keep the tail.  (Writing to a
    [bytes.Buffer] does not fail, so neither does this.) *)
Definition Write (p : list ascii) (e : encoder) : encoder :=
  let lead :=
    match buf e with
    | [] => 0%nat
    | _ => Nat.min (length p) (3 - length (buf e))%nat
    end in
  let block := (buf e ++ take lead p)%list in
  let p := drop lead p in
  if negb (bool_decide (buf e = [])) && (length block <? 3)%nat
  then {| buf := block; out := out e |}
  else
    let nn := (length p / 3 * 3)%nat in
    {| buf := drop nn p;
       out := out e +:+ Encode block +:+ Encode (take nn p) |}.

(** [encoder.Close()]: flush the pending bytes, padded. *)
Definition Close (e : encoder) : encoder :=
  {| buf := []; out := out e +:+ Encode (buf e) |}.

(** [enc.decodeMap[c]]: the index of [c] in the alphabet. *)
Fixpoint index (c : ascii) (alphabet : string) (i : Z) : option Z :=
  match alphabet with
  | EmptyString => None
  | String a rest => if Ascii.eqb a c then Some i else index c rest (i + 1)
  end.
Definition decodeMap (c : ascii) : option Z := index c encodeStd 0.

Definition isNewline (c : ascii) : bool :=
  Ascii.eqb c "010"%char || Ascii.eqb c "013"%char.

(** The quanta of four characters, line breaks removed.  Only the last
    quantum may be padded ([xx==] or [xxx=]); a character outside the
    alphabet, a short last quantum or anything after the padding is a
    [CorruptInputError]. *)
Fixpoint decodeQuanta (src : list ascii) : option (list ascii) :=
  match src with
  | [] => Some []
  | c0 :: c1 :: c2 :: c3 :: rest =>
      d0 ← decodeMap c0;
      d1 ← decodeMap c1;
      match decodeMap c2, decodeMap c3 with
      | Some d2, Some d3 =>
          let val :=
            Z.lor (Z.lor (Z.lor (Z.shiftl d0 18) (Z.shiftl d1 12))
                     (Z.shiftl d2 6)) d3 in
          tail ← decodeQuanta rest;
          Some (Zbyte (Z.shiftr val 16) :: Zbyte (Z.shiftr val 8)
                  :: Zbyte val :: tail)
      | Some d2, None =>
          if Ascii.eqb c3 padChar && bool_decide (rest = []) then
            let val :=
              Z.lor (Z.lor (Z.shiftl d0 18) (Z.shiftl d1 12))
                (Z.shiftl d2 6) in
            Some [Zbyte (Z.shiftr val 16); Zbyte (Z.shiftr val 8)]
          else None
      | None, _ =>
          if Ascii.eqb c2 padChar && Ascii.eqb c3 padChar
             && bool_decide (rest = []) then
            let val := Z.lor (Z.shiftl d0 18) (Z.shiftl d1 12) in
            Some [Zbyte (Z.shiftr val 16)]
          else None
      end
  | _ => None
  end.

(** [StdEncoding.DecodeString(s)]; [None] when it returns an error. *)
Definition DecodeString (s : string) : option (list ascii) :=
  decodeQuanta
    (List.filter (fun c => negb (isNewline c)) (list_ascii_of_string s)).

End base64.

(** What an encoder holds after the bytes [all] were written to it: the
    encoding of their whole blocks in [out], the rest in [buf]. *)
Definition holds (e : base64.encoder) (all : list ascii) : Prop :=
  ∃ (n : nat) (whole : list ascii),
    all = (whole ++ base64.buf e)%list
    ∧ length whole = (3 * n)%nat
    ∧ base64.out e = base64.Encode whole
    ∧ (length (base64.buf e) < 3)%nat.

(** The six bits of [v] from bit [k] on: an index into the alphabet. *)
Definition sextet (v k : Z) : Z := Z.land (Z.shiftr v k) 63.

(** ** Package [net/url]: parsing the query string *)

Module url.

(** [url.Values]: the values of each key, in order of appearance. *)
Abbreviation Values := (gmap string (list string)).

Definition ishex (c : ascii) : bool :=
  let n := N_of_ascii c in
  ((48 <=? n) && (n <=? 57) || (97 <=? n) && (n <=? 102)
   || (65 <=? n) && (n <=? 70))%N.

Definition unhex (c : ascii) : N :=
  let n := N_of_ascii c in
  (if (48 <=? n) && (n <=? 57) then n - 48
   else if (97 <=? n) && (n <=? 102) then n - 97 + 10
   else if (65 <=? n) && (n <=? 70) then n - 65 + 10
   else 0)%N.

(** [url.QueryUnescape]: [%XX] is the byte [XX], [+] is a space; a [%] that
    is not followed by two hex digits is an [EscapeError] ([None]). *)
Fixpoint QueryUnescape (s : string) : option string :=
  match s with
  | EmptyString => Some EmptyString
  | String "%" (String a (String b rest)) =>
      if ishex a && ishex b
      then String (ascii_of_N (N.lor (N.shiftl (unhex a) 4) (unhex b)))
             <$> QueryUnescape rest
      else None
  | String "%" _ => None
  | String "+" rest => String " " <$> QueryUnescape rest
  | String c rest => String c <$> QueryUnescape rest
  end.

(** [strings.Cut(s, sep)] for a one-byte separator: the text before and
    after the first [sep]; without a [sep], all of [s] and [""]. *)
Fixpoint Cut (sep : ascii) (s : string) : string * string :=
  match s with
  | EmptyString => (EmptyString, EmptyString)
  | String c rest =>
      if Ascii.eqb c sep then (EmptyString, rest)
      else let '(before, after) := Cut sep rest in (String c before, after)
  end.

Fixpoint Contains (c : ascii) (s : string) : bool :=
  match s with
  | EmptyString => false
  | String a rest => Ascii.eqb a c || Contains c rest
  end.

(** The pieces that the loop of [parseQuery] cuts off one after the other
    with [key, query, _ = strings.Cut(query, "&")] while [query != ""]. *)
Fixpoint pieces (query : string) (piece : string) : list string :=
  match query with
  | EmptyString => [piece]
  | String c rest =>
      if Ascii.eqb c "&" then piece :: pieces rest EmptyString
      else pieces rest (piece +:+ String c EmptyString)
  end.

(** One turn of the loop of [parseQuery]: a piece with a semicolon, an
    empty piece, or one whose key or value does not unescape, is skipped;
    otherwise [m[key] = append(m[key], value)]. *)
Definition parsePiece (m : Values) (piece : string) : Values :=
  if Contains ";" piece then m
  else if bool_decide (piece = EmptyString) then m
  else
    let '(key, value) := Cut "=" piece in
    match QueryUnescape key with
    | None => m
    | Some key =>
        match QueryUnescape value with
        | None => m
        | Some value => <[key := (default [] (m !! key) ++ [value])%list]> m
        end
    end.

(** [url.ParseQuery(query)], the error dropped as [URL.Query] does. *)
Definition ParseQuery (query : string) : Values :=
  fold_left parsePiece (pieces query EmptyString) ∅.

End url.

(** ** Errors, panics and nil-able maps *)

(** A Go [error], by its message. *)
Definition error : Type := string.

(** How a call ends: it returns, or it panics with the error it was given. *)
Inductive Outcome (A : Type) : Type :=
| Returns (a : A)
| Panics (err : error).
Arguments Returns {A} a.
Arguments Panics {A} err.

(** A Go map value: [None] is the nil map, [Some m] a map made by [make] or
    a literal.  Ranging over the nil map runs no iteration. *)
Abbreviation GoMap V := (option (gmap string V)).

Definition entries {V} (m : GoMap V) : gmap string V := default ∅ m.

(** ** Package [io] *)

Module io.

(** An [io.Reader] by what its [Read] calls will deliver: the chunks, then
    [io.EOF] ([failure = None]) or an error. *)
Record Reader := { chunks : list (list ascii); failure : option error }.

(** [io.Copy(dst, src)]: every chunk read from [src] is written to [dst]
    until [src] reports [EOF] (no error) or fails.  [write] is [dst.Write]. *)
Definition Copy {D} (write : list ascii -> D -> D) (dst : D) (src : Reader)
  : option error * D * Reader :=
  (failure src,
   fold_left (fun d p => write p d) (chunks src) dst,
   {| chunks := []; failure := failure src |}).

End io.

(** ** Package [net/http] *)

Module http.

(** [http.Header]; nil for a request built without one. *)
Abbreviation Header := (GoMap (list string)).

Definition isLower (c : ascii) : bool :=
  ((97 <=? N_of_ascii c) && (N_of_ascii c <=? 122))%N.
Definition isUpper (c : ascii) : bool :=
  ((65 <=? N_of_ascii c) && (N_of_ascii c <=? 90))%N.
Definition isDigit (c : ascii) : bool :=
  ((48 <=? N_of_ascii c) && (N_of_ascii c <=? 57))%N.

(** The bytes of an HTTP token. *)
Definition validHeaderFieldByte (c : ascii) : bool :=
  isLower c || isUpper c || isDigit c || url.Contains c "!#$%&'*+-.^_`|~".

Fixpoint allValid (s : string) : bool :=
  match s with
  | EmptyString => true
  | String c rest => validHeaderFieldByte c && allValid rest
  end.

Fixpoint canonicalize (upper : bool) (s : string) : string :=
  match s with
  | EmptyString => EmptyString
  | String c rest =>
      let c :=
        if upper && isLower c then ascii_of_N (N_of_ascii c - 32)
        else if negb upper && isUpper c then ascii_of_N (N_of_ascii c + 32)
        else c in
      String c (canonicalize (Ascii.eqb c "-") rest)
  end.

(** [textproto.CanonicalMIMEHeaderKey]: a key that is not a token is left
    as it is; otherwise the first letter and every letter after a [-] is
    made upper case, the others lower case. *)
Definition CanonicalMIMEHeaderKey (s : string) : string :=
  if allValid s then canonicalize true s else s.

(** [h.Set(key, value)] and [h.Add(key, value)] *)
Definition Set_ (key value : string) (h : gmap string (list string))
  : gmap string (list string) :=
  <[CanonicalMIMEHeaderKey key := [value]]> h.

Definition Add (key value : string) (h : gmap string (list string))
  : gmap string (list string) :=
  let key := CanonicalMIMEHeaderKey key in
  <[key := (default [] (h !! key) ++ [value])%list]> h.

(** The fields of [*http.Request] that the plugin reads.  [req.Body] is a
    stream; its state is part of the [World] below. *)
Record Request := {
  Method : string;
  URL_Path : string;
  URL_RawQuery : string;
  Req_Header : Header;
  ContentLength : Z;
}.

(** [req.URL.Query()] *)
Definition URL_Query (req : Request) : url.Values :=
  url.ParseQuery (URL_RawQuery req).

(** The interface [http.ResponseWriter], over the state [W] of an
    implementation.  [RW_Header] is the map that [rw.Header()] gives access
    to and [RW_SetHeader] stores a changed map; [WriteHeader] may panic (on a
    status code that the implementation refuses) and [Write] may return an
    error. *)
Class ResponseWriter (W : Type) := {
  RW_Header : W -> gmap string (list string);
  RW_SetHeader : gmap string (list string) -> W -> W;
  WriteHeader : Z -> W -> Outcome unit * W;
  Write : list ascii -> W -> option error * W;
}.

End http.

(** ** Package [session] of the AWS SDK *)

Module session.

Inductive SharedConfigState_ : Set :=
| SharedConfigStateFromEnv | SharedConfigDisable | SharedConfigEnable.

Record Options := { SharedConfigState : SharedConfigState_ }.

(** A session, as far as the plugin knows it: the options it was made
    with.  What the SDK has loaded into it from the environment and the
    shared configuration files is the business of the backend. *)
Record Session := { options : Options }.

(** The environment that the plugin is made in:
    [session.NewSessionWithOptions] gives a session, or the error of loading
    the configuration. *)
Class Env := NewSessionWithOptions : Options -> Session + error.

(** [session.Must]: the session, or a panic with the error. *)
Definition Must (made : Session + error) : Outcome Session :=
  match made with
  | inl sess => Returns sess
  | inr err => Panics err
  end.

End session.

(** ** Package [lambda] of the AWS SDK *)

Module lambda.

Record InvokeInput := { FunctionName : string; Payload : list ascii }.

(** [StatusCode] is a [*int64]: [None] is the nil pointer. *)
Record InvokeOutput := { StatusCode : option Z; OutPayload : list ascii }.

(** The client handle: what [lambda.New] was given, the session and the
    fields of the [aws.Config]. *)
Record Lambda := {
  ConfigProvider : session.Session;
  Region : option string;
  Endpoint : option string;
  Credentials : option (string * string);
}.

(** The invocation service, over the state [B] of the backend:
    [client.Invoke(input)] returns an output or an error and moves the
    backend on. *)
Class API (B : Type) :=
  Invoke : Lambda -> InvokeInput -> B -> (InvokeOutput + error) * B.

End lambda.

(** ** The plugin: data *)

Record Config := {
  AccessKey : string;
  SecretKey : string;
  Region : string;
  FunctionArn : string;
  Endpoint : string;
}.

(** [CreateConfig]: the fields it names are empty, and so are the two keys,
    which it leaves at their zero value. *)
Definition CreateConfig : Config :=
  {| AccessKey := EmptyString;
     SecretKey := EmptyString;
     Region := EmptyString;
     FunctionArn := EmptyString;
     Endpoint := EmptyString |}.

Module LambdaRequest.
Record t := {
  HTTPMethod : string;
  Path : string;
  QueryStringParameters : GoMap string;
  MultiValueQueryStringParameters : GoMap (list string);
  MultiValueHeaders : GoMap (list string);
  Headers : GoMap string;
  Body : string;
  IsBase64Encoded : bool;
}.
End LambdaRequest.

Module LambdaResponse.
Record t := {
  StatusCode : Z;
  StatusDescription : string;
  IsBase64Encoded : bool;
  Headers : GoMap string;
  MultiValueHeaders : GoMap (list string);
  Body : string;
}.
End LambdaResponse.

(** ** The request envelope: query parameters and headers *)

(** A [[]string] passed as an [interface{}]. *)
Definition stringsValue (val : list string) : reflect.Value :=
  reflect.SliceVal reflect.String (reflect.StringVal <$> val).

Definition headersToMap (h : http.Header) : GoMap string :=
  Some (map_fold
          (fun name headers values =>
             if negb (bool_decide (length headers = 1%nat)) then values
             else <[name := hd EmptyString headers]> values)
          ∅ (entries h)).

Definition headersToMultiMap (h : http.Header) : GoMap (list string) :=
  Some (map_fold
          (fun name headers values =>
             if (length headers <? 2)%nat then values
             else <[name := headers]> values)
          ∅ (entries h)).

Definition valuesToMap (i : url.Values) : GoMap string :=
  Some (map_fold
          (fun name val values =>
             let '(value, valid) := valueToString (stringsValue val) in
             if negb valid then values else <[name := value]> values)
          ∅ i).

Definition valuesToMultiMap (i : url.Values) : GoMap (list string) :=
  Some (map_fold
          (fun name val values =>
             let '(value, valid) := valuesToStrings (stringsValue val) in
             if negb valid || bool_decide (length value = 1%nat) then values
             else <[name := value]> values)
          ∅ i).

(** The [LambdaRequest] literal of [ServeHTTP], given the two results of
    [bodyToBase64]. *)
Definition envelope (req : http.Request) (base64Encoded : bool) (body : string)
  : LambdaRequest.t :=
  {| LambdaRequest.HTTPMethod := http.Method req;
     LambdaRequest.Path := http.URL_Path req;
     LambdaRequest.QueryStringParameters := valuesToMap (http.URL_Query req);
     LambdaRequest.MultiValueQueryStringParameters :=
       valuesToMultiMap (http.URL_Query req);
     LambdaRequest.Headers := headersToMap (http.Req_Header req);
     LambdaRequest.MultiValueHeaders := headersToMultiMap (http.Req_Header req);
     LambdaRequest.Body := body;
     LambdaRequest.IsBase64Encoded := base64Encoded |}.

(** ** Package [encoding/json], as far as the plugin uses it *)

Module json.

(** [json.Marshal] of a [LambdaRequest] and [json.Unmarshal] into a
    [LambdaResponse]: the wire format is the codec's business. *)
Class Codec := {
  Marshal : LambdaRequest.t -> list ascii + error;
  Unmarshal : list ascii -> LambdaResponse.t + error;
}.

End json.

(** ** The plugin: behaviour *)

Section Plugin.

Context {B W : Type} `{!lambda.API B} `{!http.ResponseWriter W} `{!json.Codec}.
Context `{Hsession : !session.Env}.

(** What a request handler acts on: the stream behind [req.Body], the
    invocation backend, and the response writer [rw]. *)
Record World := {
  inbound : io.Reader;
  backend : B;
  outbound : W;
}.

(** A computation that may change the world and may panic; the changes
    made before a panic stay. *)
Definition M (A : Type) : Type := World -> Outcome A * World.

#[local] Instance M_ret : MRet M := fun A a w => (Returns a, w).
#[local] Instance M_bind : MBind M := fun A A' k m w =>
  match m w with
  | (Returns a, w') => k a w'
  | (Panics err, w') => (Panics err, w')
  end.

Definition panic {A} (err : error) : M A := fun w => (Panics err, w).

(** [io.Copy(dst, req.Body)] *)
Definition copyBody {D} (write : list ascii -> D -> D) (dst : D)
  : M (option error * D) :=
  fun w =>
    let '(err, dst, src) := io.Copy write dst (inbound w) in
    (Returns (err, dst),
     {| inbound := src; backend := backend w; outbound := outbound w |}).

(** [client.Invoke(input)] *)
Definition clientInvoke (client : lambda.Lambda) (input : lambda.InvokeInput)
  : M (lambda.InvokeOutput + error) :=
  fun w =>
    let '(result, b) := lambda.Invoke client input (backend w) in
    (Returns result,
     {| inbound := inbound w; backend := b; outbound := outbound w |}).

Definition onWriter {A} (op : W -> Outcome A * W) : M A :=
  fun w =>
    let '(r, rw) := op (outbound w) in
    (r, {| inbound := inbound w; backend := backend w; outbound := rw |}).

(** [rw.Header().Set(key, value)], [rw.Header().Add(key, value)] *)
Definition rwHeaderSet (key value : string) : M unit :=
  onWriter (fun rw =>
    (Returns tt, http.RW_SetHeader (http.Set_ key value (http.RW_Header rw)) rw)).

Definition rwHeaderAdd (key value : string) : M unit :=
  onWriter (fun rw =>
    (Returns tt, http.RW_SetHeader (http.Add key value (http.RW_Header rw)) rw)).

(** [rw.WriteHeader(code)], [rw.Write(p)] *)
Definition rwWriteHeader (code : Z) : M unit :=
  onWriter (http.WriteHeader code).

Definition rwWrite (p : list ascii) : M (option error) :=
  onWriter (fun rw => let '(err, rw) := http.Write p rw in (Returns err, rw)).

(** [http.Handler] *)
Definition Handler : Type := http.Request -> M unit.

Record AwsLambdaPlugin := {
  next : Handler;
  functionArn : string;
  name : string;
  client : lambda.Lambda;
}.

(** [New]: the plugin or the error, or the panic of [session.Must].  (The
    context [ctx] is not used.) *)
Definition New (next : Handler) (config : Config) (name : string)
  : Outcome (AwsLambdaPlugin + error) :=
  if bool_decide (String.length (FunctionArn config) = 0%nat)
  then Returns (inr "function arn cannot be empty")
  else
    match
      session.Must
        (session.NewSessionWithOptions
           {| session.SharedConfigState := session.SharedConfigEnable |})
    with
    | Panics err => Panics err
    | Returns sess =>
        let region :=
          if (0 <? String.length (Region config))%nat
          then Some (Region config) else None in
        let endpoint :=
          if (0 <? String.length (Endpoint config))%nat
          then Some (Endpoint config) else None in
        let creds :=
          if (0 <? String.length (AccessKey config))%nat
             && (0 <? String.length (SecretKey config))%nat
          then Some (AccessKey config, SecretKey config) else None in
        Returns
          (inl {| functionArn := FunctionArn config;
                  client := {| lambda.ConfigProvider := sess;
                               lambda.Region := region;
                               lambda.Endpoint := endpoint;
                               lambda.Credentials := creds |};
                  next := next;
                  name := name |})
    end.

(** The world once [req.Body] was read to its end. *)
Definition drained (w : World) : World :=
  {| inbound := {| io.chunks := []; io.failure := io.failure (inbound w) |};
     backend := backend w;
     outbound := outbound w |}.

Definition bodyToBase64 (req : http.Request) : M (bool * string) :=
  if negb (bool_decide (http.ContentLength req = 0)) then
    '(err, encoder) ← copyBody base64.Write base64.NewEncoder;
    match err with
    | Some err => panic err
    | None =>
        (* [encoder.Close()] flushes into a [bytes.Buffer]: no error *)
        mret (true, base64.out (base64.Close encoder))
    end
  else mret (false, EmptyString).

Definition invokeFunction (a : AwsLambdaPlugin) (request : LambdaRequest.t)
  : M LambdaResponse.t :=
  match json.Marshal request with
  | inr err => panic err
  | inl payload =>
      result ← clientInvoke (client a)
                 {| lambda.FunctionName := functionArn a;
                    lambda.Payload := payload |};
      match result with
      | inr err => panic err
      | inl result =>
          match lambda.StatusCode result with
          | None => panic "invalid memory address or nil pointer dereference"
          | Some code =>
              if negb (bool_decide (code = 200))
              then panic "call to lambda failed"
              else
                match json.Unmarshal (lambda.OutPayload result) with
                | inr err => panic err
                | inl resp => mret resp
                end
          end
      end
  end.

(** The two header loops of [ServeHTTP].  Go leaves the order of a [range]
    over a map open; [map_fold] visits the entries in one fixed order. *)
Definition setHeaders (headers : GoMap string) : M unit :=
  map_fold (fun key value (rest : M unit) => rest;; rwHeaderSet key value)
    (mret tt) (entries headers).

Definition addHeaders (headers : GoMap (list string)) : M unit :=
  map_fold
    (fun key values (rest : M unit) =>
       rest;;
       fold_left (fun (sofar : M unit) value => sofar;; rwHeaderAdd key value)
         values (mret tt))
    (mret tt) (entries headers).

Definition ServeHTTP (a : AwsLambdaPlugin) (req : http.Request) : M unit :=
  '(base64Encoded, body) ← bodyToBase64 req;
  resp ← invokeFunction a (envelope req base64Encoded body);
  body ← (if LambdaResponse.IsBase64Encoded resp then
            match base64.DecodeString (LambdaResponse.Body resp) with
            | None => panic "illegal base64 data"
            | Some buf => mret (string_of_list_ascii buf)
            end
          else mret (LambdaResponse.Body resp));
  setHeaders (LambdaResponse.Headers resp);;
  addHeaders (LambdaResponse.MultiValueHeaders resp);;
  rwWriteHeader (LambdaResponse.StatusCode resp);;
  err ← rwWrite (list_ascii_of_string body);
  match err with
  | Some err => panic err
  | None => mret tt
  end.

(** Two stages of [ServeHTTP] by themselves: the envelope that it hands to
    [invokeFunction], and what it does to [rw] once it has the text [body]
    to send (its last four statements). *)
Definition requestEnvelope (req : http.Request) : M LambdaRequest.t :=
  '(base64Encoded, body) ← bodyToBase64 req;
  mret (envelope req base64Encoded body).

Definition writeResponse (resp : LambdaResponse.t) (body : string) : M unit :=
  setHeaders (LambdaResponse.Headers resp);;
  addHeaders (LambdaResponse.MultiValueHeaders resp);;
  rwWriteHeader (LambdaResponse.StatusCode resp);;
  err ← rwWrite (list_ascii_of_string body);
  match err with
  | Some err => panic err
  | None => mret tt
  end.

(** A computation that leaves the request body and the backend alone: all
    it may change is the response writer. *)
Definition writerOnly {A} (m : M A) : Prop :=
  ∀ w r w', m w = (r, w') → inbound w' = inbound w ∧ backend w' = backend w.

(** The text that [ServeHTTP] sends for [resp]: the decoded body if the
    response is flagged as base64, the body itself if not; [None] if the
    flagged body does not decode. *)
Definition bodyText (resp : LambdaResponse.t) : option string :=
  if LambdaResponse.IsBase64Encoded resp
  then string_of_list_ascii <$> base64.DecodeString (LambdaResponse.Body resp)
  else Some (LambdaResponse.Body resp).

End Plugin.

Arguments World : clear implicits.
Arguments M : clear implicits.
Arguments Handler : clear implicits.
Arguments AwsLambdaPlugin : clear implicits.

(** The answers of the backend that are not a success: an error of the
    call, or a status code that is not 200 (or is missing). *)
Definition failed (result : lambda.InvokeOutput + error) : Prop :=
  match result with
  | inr _ => True
  | inl output => lambda.StatusCode output ≠ Some 200
  end.

(** A response writer whose [Header()] is the map that was last stored in
    it: what [rw.Header().Set] changes is what [rw.Header()] shows next. *)
Definition keepsHeader (W : Type) `{!http.ResponseWriter W} : Prop :=
  ∀ (h : gmap string (list string)) (rw : W),
    http.RW_Header (http.RW_SetHeader h rw) = h.

(** [name] is the only name of the response's two header maps with its
    canonical form. *)
Definition alone (resp : LambdaResponse.t) (name : string) : Prop :=
  ∀ name',
    is_Some (entries (LambdaResponse.Headers resp) !! name')
    ∨ is_Some (entries (LambdaResponse.MultiValueHeaders resp) !! name') →
    http.CanonicalMIMEHeaderKey name' = http.CanonicalMIMEHeaderKey name →
    name' = name.

(** ** An environment to run the plugin in *)

(** [httptest.ResponseRecorder]: it keeps what the handler wrote. *)
Module httptest.

Record ResponseRecorder := {
  Code : Z;
  HeaderMap : gmap string (list string);
  Body : list ascii;
  wroteHeader : bool;
}.

Definition NewRecorder : ResponseRecorder :=
  {| Code := 200; HeaderMap := ∅; Body := []; wroteHeader := false |}.

Definition WriteHeader (code : Z) (rw : ResponseRecorder)
  : Outcome unit * ResponseRecorder :=
  if wroteHeader rw then (Returns tt, rw)
  else if (code <? 100) || (999 <? code)
  then (Panics "invalid WriteHeader code", rw)
  else (Returns tt,
        {| Code := code; HeaderMap := HeaderMap rw; Body := Body rw;
           wroteHeader := true |}).

(** The status codes that may come with a body: all but 1xx, 204 and 304. *)
Definition bodyAllowedForStatus (status : Z) : bool :=
  if (100 <=? status) && (status <=? 199) then false
  else if status =? 204 then false
  else if status =? 304 then false
  else true.

(** [Write]: refused with [http.ErrBodyNotAllowed] when the status code of
    the recorder does not allow a body; otherwise the header is written with
    status 200 if it was not written yet, and the bytes are appended to the
    body.  (Before it writes the header itself, the recorder also sniffs a
    [Content-Type] from the bytes; that is left out: a handler that calls
    [WriteHeader] first, as [ServeHTTP] does, never gets there.) *)
Definition Write (p : list ascii) (rw : ResponseRecorder)
  : option error * ResponseRecorder :=
  if negb (bodyAllowedForStatus (Code rw))
  then (Some "http: request method or response status code does not allow body",
        rw)
  else
    (None,
     {| Code := if wroteHeader rw then Code rw else 200;
        HeaderMap := HeaderMap rw;
        Body := (Body rw ++ p)%list;
        wroteHeader := true |}).

#[global] Instance recorder : http.ResponseWriter ResponseRecorder := {|
  http.RW_Header := HeaderMap;
  http.RW_SetHeader h rw :=
    {| Code := Code rw; HeaderMap := h; Body := Body rw;
       wroteHeader := wroteHeader rw |};
  http.WriteHeader := WriteHeader;
  http.Write := Write;
|}.

End httptest.

(** The world with another header map in the recorder. *)
Definition withHeaderMap {B} (h : gmap string (list string))
    (w : World B httptest.ResponseRecorder)
  : World B httptest.ResponseRecorder :=
  {| inbound := inbound w;
     backend := backend w;
     outbound :=
       {| httptest.Code := httptest.Code (outbound w);
          httptest.HeaderMap := h;
          httptest.Body := httptest.Body (outbound w);
          httptest.wroteHeader := httptest.wroteHeader (outbound w) |} |}.

(** A computation that returns and changes nothing but the header map. *)
Definition headersOnly (B : Type) (m : M B httptest.ResponseRecorder unit)
  : Prop :=
  ∀ w, ∃ h, m w = (Returns tt, withHeaderMap h w).

(** A scripted backend: it answers the calls with the results it was given,
    in order, and keeps the inputs it received. *)
Module mock.

Record Backend := {
  script : list (lambda.InvokeOutput + error);
  calls : list lambda.InvokeInput;
}.

#[global] Instance api : lambda.API Backend := fun _ input b =>
  match script b with
  | [] =>
      (inr "connection refused",
       {| script := []; calls := (calls b ++ [input])%list |})
  | r :: rest => (r, {| script := rest; calls := (calls b ++ [input])%list |})
  end.

(** An environment in which the session is made. *)
Definition env : session.Env := fun options =>
  inl {| session.options := options |}.

(** A stand-in for the JSON codec.  A request is sent as its method, path
    and body.  The first byte of an answer tells its kind: after [!] comes a
    base64 encoded body, with status 200; after any other byte a plain body,
    with status 500. *)
#[global] Instance codec : json.Codec := {|
  json.Marshal request :=
    inl (list_ascii_of_string
           (LambdaRequest.HTTPMethod request +:+ " "
              +:+ LambdaRequest.Path request +:+ " "
              +:+ LambdaRequest.Body request));
  json.Unmarshal p :=
    match p with
    | [] => inr "unexpected end of JSON input"
    | c :: body =>
        let encoded := bool_decide (c = "!"%char) in
        inl {| LambdaResponse.StatusCode := if encoded then 200 else 500;
               LambdaResponse.StatusDescription := EmptyString;
               LambdaResponse.IsBase64Encoded := encoded;
               LambdaResponse.Headers := None;
               LambdaResponse.MultiValueHeaders := None;
               LambdaResponse.Body := string_of_list_ascii body |}
    end;
|}.

(** The request of the repository's test: a [POST] with repeated query
    parameters and headers and the body [This is the body], in two chunks. *)
Definition request : http.Request :=
  {| http.Method := "POST";
     http.URL_Path := "/this/path/is/not/empty";
     http.URL_RawQuery := "a=1&b=2&c=3&c=4&d[]=5&d[]=6";
     http.Req_Header :=
       Some (http.Add "X-Test" "foobar"
               (http.Add "X-Test" "foo"
                  (http.Set_ "Content-Type" "text/plain" ∅)));
     http.ContentLength := 16 |}.

Definition world (answers : list (lambda.InvokeOutput + error))
  : World Backend httptest.ResponseRecorder :=
  {| inbound :=
       {| io.chunks :=
            [list_ascii_of_string "This is "; list_ascii_of_string "the body"];
          io.failure := None |};
     backend := {| script := answers; calls := [] |};
     outbound := httptest.NewRecorder |}.

Definition config : Config :=
  {| AccessKey := "aws-key";
     SecretKey := "@@not-a-key";
     Region := "eu-west-1";
     FunctionArn := "arn:aws:lambda:eu-west-1:000000000000:function:xxx:1";
     Endpoint := "http://127.0.0.1" |}.

Definition plugin (next : Handler Backend httptest.ResponseRecorder)
  : AwsLambdaPlugin Backend httptest.ResponseRecorder :=
  {| next := next;
     functionArn := "arn:aws:lambda:eu-west-1:000000000000:function:xxx:1";
     name := "lambda-plugin";
     client :=
       {| lambda.ConfigProvider :=
            {| session.options :=
                 {| session.SharedConfigState := session.SharedConfigEnable |} |};
          lambda.Region := Some "eu-west-1";
          lambda.Endpoint := Some "http://127.0.0.1";
          lambda.Credentials := Some ("aws-key", "@@not-a-key") |} |}.

Definition plainAnswer : lambda.InvokeOutput + error :=
  inl {| lambda.StatusCode := Some 200;
         lambda.OutPayload := list_ascii_of_string "-" |}.

Definition encodedAnswer : lambda.InvokeOutput + error :=
  inl {| lambda.StatusCode := Some 200;
         lambda.OutPayload := list_ascii_of_string "!aGk=" |}.

Definition refusedAnswer : lambda.InvokeOutput + error :=
  inl {| lambda.StatusCode := Some 500; lambda.OutPayload := [] |}.

Definition sentInput : lambda.InvokeInput :=
  {| lambda.FunctionName :=
       "arn:aws:lambda:eu-west-1:000000000000:function:xxx:1";
     lambda.Payload :=
       list_ascii_of_string
         "POST /this/path/is/not/empty VGhpcyBpcyB0aGUgYm9keQ==" |}.

Definition readToEnd : io.Reader := {| io.chunks := []; io.failure := None |}.

(** A request body that breaks off after four bytes. *)
Definition brokenWorld : World Backend httptest.ResponseRecorder :=
  {| inbound :=
       {| io.chunks := [list_ascii_of_string "This"];
          io.failure := Some "unexpected EOF" |};
     backend := {| script := [plainAnswer]; calls := [] |};
     outbound := httptest.NewRecorder |}.

(** A codec whose answers have no field set, as the JSON object without
    members unmarshals. *)
Definition bareCodec : json.Codec := {|
  json.Marshal := json.Marshal (Codec := codec);
  json.Unmarshal _ :=
    inl {| LambdaResponse.StatusCode := 0;
           LambdaResponse.StatusDescription := EmptyString;
           LambdaResponse.IsBase64Encoded := false;
           LambdaResponse.Headers := None;
           LambdaResponse.MultiValueHeaders := None;
           LambdaResponse.Body := EmptyString |};
|}.

(** A codec whose answers are [204 No Content] with the body [x]. *)
Definition noContentCodec : json.Codec := {|
  json.Marshal := json.Marshal (Codec := codec);
  json.Unmarshal _ :=
    inl {| LambdaResponse.StatusCode := 204;
           LambdaResponse.StatusDescription := EmptyString;
           LambdaResponse.IsBase64Encoded := false;
           LambdaResponse.Headers := None;
           LambdaResponse.MultiValueHeaders := None;
           LambdaResponse.Body := "x" |};
|}.

(** An environment whose shared configuration does not load. *)
Definition noSession : session.Env := fun _ =>
  inr "SharedConfigLoadError: failed to load config file".

(** A response with the header [x-test] in both of its header maps. *)
Definition headerResponse : LambdaResponse.t :=
  {| LambdaResponse.StatusCode := 200;
     LambdaResponse.StatusDescription := EmptyString;
     LambdaResponse.IsBase64Encoded := false;
     LambdaResponse.Headers := Some {["x-test" := "a"]};
     LambdaResponse.MultiValueHeaders := Some {["x-test" := ["b"; "c"]]};
     LambdaResponse.Body := EmptyString |}.

End mock.

(** * Properties *)

(** ** Strings *)




(** ** Coercion *)

Lemma valueToString_eq (f : reflect.Value) :
  valueToString f =
  match reflect.KindOf f with
  | reflect.Int | reflect.Int8 | reflect.Int16 | reflect.Int32
  | reflect.Int64 =>
      (strconv.FormatInt_10 (reflect.Int_ f), true)
  | reflect.Uint | reflect.Uint8 | reflect.Uint16 | reflect.Uint32
  | reflect.Uint64 =>
      (strconv.FormatUint_10 (reflect.Uint_ f), true)
  | reflect.Float32 | reflect.Float64 =>
      (strconv.FormatFloat_f (reflect.Float_ f) 4, true)
  | reflect.String => (reflect.String_ f, true)
  | reflect.Slice =>
      let '(t, valid) := valuesToStrings f in
      if negb valid || negb (bool_decide (length t = 1%nat))
      then (EmptyString, false)
      else (hd EmptyString t, true)
  | _ => (EmptyString, false)
  end.
Proof. destruct f as [k ?|k ?|k ?| | |k]; try destruct k; reflexivity. Qed.

Lemma valueToString_slice (elem : reflect.Kind) (s : list reflect.Value) :
  valueToString (reflect.SliceVal elem s) =
  let '(t, valid) := valuesToStrings (reflect.SliceVal elem s) in
  if negb valid || negb (bool_decide (length t = 1%nat))
  then (EmptyString, false)
  else (hd EmptyString t, true).
Proof. exact (valueToString_eq (reflect.SliceVal elem s)). Qed.


Lemma valuesToStrings_slice (elem : reflect.Kind) (s : list reflect.Value) :
  valuesToStrings (reflect.SliceVal elem s) =
  if sequenceElem elem
  then (fold_left
          (fun v x =>
             let '(conv, valid) := valueToString x in
             if negb valid then v else (v ++ [conv])%list)
          s [],
        true)
  else ([], false).
Proof. destruct elem; reflexivity. Qed.

(** Every value of a kind in [sequenceElem] is coerced. *)
Lemma valueToString_scalar (f : reflect.Value) :
  sequenceElem (reflect.KindOf f) = true → (valueToString f).2 = true.
Proof.
  rewrite valueToString_eq. destruct (reflect.KindOf f); simpl; congruence.
Qed.

Lemma coerce_all (elem : reflect.Kind) (s : list reflect.Value)
    (acc : list string) :
  sequenceElem elem = true →
  Forall (fun x => reflect.KindOf x = elem) s →
  fold_left
    (fun v x =>
       let '(conv, valid) := valueToString x in
       if negb valid then v else (v ++ [conv])%list)
    s acc
  = (acc ++ ((fun x => (valueToString x).1) <$> s))%list.
Proof.
  intros Helem Hs. revert acc.
  induction Hs as [|x s Hx _ IH]; intros acc; simpl.
  - by rewrite app_nil_r.
  - pose proof (valueToString_scalar x) as Hv. rewrite Hx in Hv.
    destruct (valueToString x) as [conv valid]. simpl in *.
    rewrite (Hv Helem). simpl. rewrite IH. by rewrite <- app_assoc.
Qed.

(** A slice whose element kind is let through: all elements are coerced, in
    order. *)
Lemma valuesToStrings_ok (elem : reflect.Kind) (s : list reflect.Value) :
  sequenceElem elem = true →
  reflect.wellTyped (reflect.SliceVal elem s) = true →
  valuesToStrings (reflect.SliceVal elem s)
  = ((fun x => (valueToString x).1) <$> s, true).
Proof.
  intros Helem Hwt. rewrite valuesToStrings_slice, Helem.
  f_equal. apply (coerce_all elem s []); [done|].
  simpl in Hwt. induction s as [|x s IH]; [constructor|].
  simpl in Hwt. apply andb_prop in Hwt as [Hx Hs].
  apply andb_prop in Hx as [Hx _]. constructor; [|auto].
  apply orb_prop in Hx as [Hx|Hx]; apply bool_decide_eq_true in Hx; [|done].
  by rewrite Hx in Helem.
Qed.

(** On a [[]string]: the strings themselves. *)
Lemma valuesToStrings_strings (val : list string) :
  valuesToStrings (stringsValue val) = (val, true).
Proof.
  unfold stringsValue. rewrite valuesToStrings_slice. simpl. f_equal.
  rewrite (coerce_all reflect.String); [|done|].
  - simpl. rewrite <- list_fmap_compose.
    rewrite <- (list_fmap_id val) at 2. by apply list_fmap_ext.
  - apply Forall_fmap, Forall_true. done.
Qed.

Lemma valueToString_strings (val : list string) :
  valueToString (stringsValue val) =
  match val with
  | [value] => (value, true)
  | _ => (EmptyString, false)
  end.
Proof.
  unfold stringsValue. rewrite valueToString_slice.
  fold (stringsValue val). rewrite valuesToStrings_strings.
  destruct val as [|v [|v' val]]; reflexivity.
Qed.

(** ** Ranging over a map *)

(** A [range] loop that stores, for each entry, at most one value under the
    entry's own key: the result has [g name val] at [name], whatever the
    order of the iteration. *)
Lemma range_lookup {A V} (g : string → A → option V)
    (body : string → A → gmap string V → gmap string V) :
  (∀ name val values,
     body name val values
     = match g name val with
       | Some y => <[name := y]> values
       | None => values
       end) →
  ∀ (m : gmap string A) (name : string),
    map_fold body ∅ m !! name = m !! name ≫= g name.
Proof.
  intros Hbody m name.
  apply (map_fold_weak_ind (fun r m => r !! name = m !! name ≫= g name)).
  - by rewrite !lookup_empty.
  - clear m. intros k x m r Hk IH. rewrite Hbody.
    destruct (decide (k = name)) as [->|Hne].
    + rewrite lookup_insert_eq. simpl.
      destruct (g name x); [by rewrite lookup_insert_eq|].
      by rewrite IH, Hk.
    + rewrite (lookup_insert_ne m), <- IH by done.
      destruct (g k x); [by rewrite lookup_insert_ne|done].
Qed.

Lemma entries_Some {V} (m : gmap string V) : entries (Some m) = m.
Proof. reflexivity. Qed.

Lemma headersToMap_lookup (h : http.Header) (name : string) :
  entries (headersToMap h) !! name
  = entries h !! name ≫= (fun headers =>
      match headers with [value] => Some value | _ => None end).
Proof.
  unfold headersToMap. rewrite entries_Some.
  rewrite (range_lookup (fun _ headers =>
             match headers with [value] => Some value | _ => None end)); [done|].
  by intros ? [|? [|? ?]] ?.
Qed.

Lemma headersToMultiMap_lookup (h : http.Header) (name : string) :
  entries (headersToMultiMap h) !! name
  = entries h !! name ≫= (fun headers =>
      match headers with _ :: _ :: _ => Some headers | _ => None end).
Proof.
  unfold headersToMultiMap. rewrite entries_Some.
  rewrite (range_lookup (fun _ headers =>
             match headers with _ :: _ :: _ => Some headers | _ => None end));
    [done|].
  by intros ? [|? [|? ?]] ?.
Qed.

Lemma valuesToMap_lookup (i : url.Values) (name : string) :
  entries (valuesToMap i) !! name
  = i !! name ≫= (fun val =>
      match val with [value] => Some value | _ => None end).
Proof.
  unfold valuesToMap. rewrite entries_Some.
  rewrite (range_lookup (fun _ val =>
             match val with [value] => Some value | _ => None end)); [done|].
  intros ? val ?. rewrite valueToString_strings. by destruct val as [|? [|? ?]].
Qed.

Lemma valuesToMultiMap_lookup (i : url.Values) (name : string) :
  entries (valuesToMultiMap i) !! name
  = i !! name ≫= (fun val =>
      match val with [_] => None | _ => Some val end).
Proof.
  unfold valuesToMultiMap. rewrite entries_Some.
  rewrite (range_lookup (fun _ val =>
             match val with [_] => None | _ => Some val end)); [done|].
  intros ? val ?. rewrite valuesToStrings_strings. by destruct val as [|? [|? ?]].
Qed.

(** ** The parsed query *)

Lemma parsePiece_nonempty (m : url.Values) (piece : string) :
  map_Forall (fun _ val => val ≠ []) m →
  map_Forall (fun _ val => val ≠ []) (url.parsePiece m piece).
Proof.
  intros Hm. unfold url.parsePiece.
  destruct (url.Contains ";" piece); [done|].
  case_bool_decide; [done|].
  destruct (url.Cut "=" piece) as [key value].
  destruct (url.QueryUnescape key) as [key'|]; [|done].
  destruct (url.QueryUnescape value) as [value'|]; [|done].
  apply map_Forall_insert_2; [|done].
  by destruct (default [] (m !! key')).
Qed.

(** Every key of a parsed query has at least one value. *)
Lemma ParseQuery_nonempty (query : string) :
  map_Forall (fun _ val => val ≠ []) (url.ParseQuery query).
Proof.
  unfold url.ParseQuery.
  assert (∀ ps (m : url.Values),
            map_Forall (fun _ val => val ≠ []) m →
            map_Forall (fun _ val => val ≠ []) (fold_left url.parsePiece ps m))
    as H.
  { induction ps as [|p ps IH]; intros m Hm; simpl; [done|].
    by apply IH, parsePiece_nonempty. }
  apply H, map_Forall_empty.
Qed.

Lemma ParseQuery_empty : url.ParseQuery EmptyString = ∅.
Proof. reflexivity. Qed.

(** Escapes are resolved, a key without [=] has the empty value, and empty
    pieces, pieces with a semicolon and pieces that do not unescape are
    skipped. *)
Example ParseQuery_sample :
  url.ParseQuery "a=1&&b=%41+x&c=3;c=4&d%5B%5D=5&d[]=6&e&f=%zz&a=2&"
  = <["a" := ["1"; "2"]]> (<["b" := ["A x"]]> (<["d[]" := ["5"; "6"]]>
      (<["e" := [EmptyString]]> ∅))).
Proof. vm_compute. reflexivity. Qed.

(** By itself, [valuesToMultiMap] does not insist on two values: it keeps a
    name that has none, where [headersToMultiMap] drops it.  Only the parsed
    query rules this out. *)
Remark valuesToMultiMap_no_value :
  entries (valuesToMultiMap {["k" := []]}) !! "k" = Some []
  ∧ entries (headersToMultiMap (Some {["k" := []]})) !! "k" = None.
Proof.
  rewrite valuesToMultiMap_lookup, headersToMultiMap_lookup, entries_Some.
  by rewrite !lookup_singleton_eq.
Qed.

(** ** The envelope's maps *)

(** C4.  Headers are partitioned by the number of their values alone, the
    values untouched: a name with one value is in [headers] with that value
    and not in [multiValueHeaders]; a name with two or more values is in
    [multiValueHeaders] with all of them, in order, and not in [headers]; a
    name with no value, like a name that is not a header of the request, is
    in neither map. *)
Theorem headers_partition (h : http.Header) (name : string) :
  match entries h !! name with
  | Some [value] =>
      entries (headersToMap h) !! name = Some value
      ∧ entries (headersToMultiMap h) !! name = None
  | Some (v1 :: v2 :: rest) =>
      entries (headersToMap h) !! name = None
      ∧ entries (headersToMultiMap h) !! name = Some (v1 :: v2 :: rest)
  | Some [] | None =>
      entries (headersToMap h) !! name = None
      ∧ entries (headersToMultiMap h) !! name = None
  end.
Proof.
  rewrite headersToMap_lookup, headersToMultiMap_lookup.
  destruct (entries h !! name) as [[|v1 [|v2 rest]]|]; by split.
Qed.

(** Query parameters are partitioned in the same way; a parsed query has no
    name without a value. *)
Lemma query_partition (req : http.Request) (name : string) :
  match http.URL_Query req !! name with
  | Some [value] =>
      entries (valuesToMap (http.URL_Query req)) !! name = Some value
      ∧ entries (valuesToMultiMap (http.URL_Query req)) !! name = None
  | Some (v1 :: v2 :: rest) =>
      entries (valuesToMap (http.URL_Query req)) !! name = None
      ∧ entries (valuesToMultiMap (http.URL_Query req)) !! name
        = Some (v1 :: v2 :: rest)
  | Some [] => False
  | None =>
      entries (valuesToMap (http.URL_Query req)) !! name = None
      ∧ entries (valuesToMultiMap (http.URL_Query req)) !! name = None
  end.
Proof.
  rewrite valuesToMap_lookup, valuesToMultiMap_lookup.
  destruct (http.URL_Query req !! name) as [[|v1 [|v2 rest]]|] eqn:Hq;
    try by split.
  by apply (ParseQuery_nonempty (http.URL_RawQuery req)) in Hq.
Qed.

(** C1.  In the envelope of any request, no query parameter is in both
    [queryStringParameters] and [multiValueQueryStringParameters], no header
    is in both [headers] and [multiValueHeaders], and every sequence in one
    of the two multi-value maps has at least two elements. *)
Theorem envelope_single_or_multi
    (req : http.Request) (base64Encoded : bool) (body : string) :
  let env := envelope req base64Encoded body in
  dom (entries (LambdaRequest.QueryStringParameters env))
    ## dom (entries (LambdaRequest.MultiValueQueryStringParameters env))
  ∧ dom (entries (LambdaRequest.Headers env))
      ## dom (entries (LambdaRequest.MultiValueHeaders env))
  ∧ map_Forall (fun _ value => (2 ≤ length value)%nat)
      (entries (LambdaRequest.MultiValueQueryStringParameters env))
  ∧ map_Forall (fun _ value => (2 ≤ length value)%nat)
      (entries (LambdaRequest.MultiValueHeaders env)).
Proof.
  simpl LambdaRequest.QueryStringParameters.
  simpl LambdaRequest.MultiValueQueryStringParameters.
  simpl LambdaRequest.Headers. simpl LambdaRequest.MultiValueHeaders.
  cbv zeta. repeat split.
  - apply elem_of_disjoint. intros name [x Hx]%elem_of_dom [y Hy]%elem_of_dom.
    rewrite valuesToMap_lookup in Hx. rewrite valuesToMultiMap_lookup in Hy.
    destruct (http.URL_Query req !! name) as [[|? [|? ?]]|]; discriminate.
  - apply elem_of_disjoint. intros name [x Hx]%elem_of_dom [y Hy]%elem_of_dom.
    rewrite headersToMap_lookup in Hx. rewrite headersToMultiMap_lookup in Hy.
    destruct (entries (http.Req_Header req) !! name) as [[|? [|? ?]]|];
      discriminate.
  - intros name value Hv. rewrite valuesToMultiMap_lookup in Hv.
    destruct (http.URL_Query req !! name) as [val|] eqn:Hq; [|discriminate].
    apply (ParseQuery_nonempty (http.URL_RawQuery req)) in Hq.
    destruct val as [|? [|? ?]]; simplify_eq/=; lia.
  - intros name value Hv. rewrite headersToMultiMap_lookup in Hv.
    destruct (entries (http.Req_Header req) !! name) as [[|? [|? ?]]|];
      simplify_eq/=; lia.
Qed.

(** C9.  A request with an empty query string and without headers (a nil
    or an empty header map) has an envelope whose four maps are non-nil and
    empty. *)
Theorem envelope_empty_maps
    (req : http.Request) (base64Encoded : bool) (body : string) :
  http.URL_RawQuery req = EmptyString →
  entries (http.Req_Header req) = ∅ →
  let env := envelope req base64Encoded body in
  LambdaRequest.QueryStringParameters env = Some ∅
  ∧ LambdaRequest.MultiValueQueryStringParameters env = Some ∅
  ∧ LambdaRequest.Headers env = Some ∅
  ∧ LambdaRequest.MultiValueHeaders env = Some ∅.
Proof.
  intros Hq Hh. simpl.
  unfold valuesToMap, valuesToMultiMap, headersToMap, headersToMultiMap,
    http.URL_Query.
  rewrite Hq, Hh, ParseQuery_empty. by rewrite !map_fold_empty.
Qed.

Lemma envelope_empty_maps_witness :
  let env :=
    envelope {| http.Method := "GET"; http.URL_Path := "/";
                http.URL_RawQuery := EmptyString; http.Req_Header := None;
                http.ContentLength := 0 |} false EmptyString in
  LambdaRequest.QueryStringParameters env = Some ∅
  ∧ LambdaRequest.MultiValueQueryStringParameters env = Some ∅
  ∧ LambdaRequest.Headers env = Some ∅
  ∧ LambdaRequest.MultiValueHeaders env = Some ∅.
Proof. apply envelope_empty_maps; reflexivity. Defined.

(** ** Scalars and sequences *)

(** Both are floats of their format, and no further from 314159/100000 than
    half a unit in the last place (2^-52 and 2^-23). *)
Lemma float_3_14159_nearest :
  valid_binary 53 1024 float64_3_14159 = true
  ∧ 2 * Z.abs (7074231776675438 * 100000 - 314159 * 2 ^ 51) ≤ 100000
  ∧ valid_binary 24 128 float32_3_14159 = true
  ∧ 2 * Z.abs (13176784 * 100000 - 314159 * 2 ^ 22) ≤ 100000.
Proof. repeat split; vm_compute; congruence. Qed.

(** Different integers have different decimal forms. *)
Lemma FormatInt_inj (i j : Z) :
  strconv.FormatInt_10 i = strconv.FormatInt_10 j → i = j.
Proof. apply (inj pretty). Qed.

(** [%.4f] on a few floats: one half, the ties 1/32 and 3/32 (to even), a
    negative value that rounds to zero, negative zero, 2^70, and the
    specials. *)
Example FormatFloat_samples :
  (fun x => strconv.FormatFloat_f x 4)
    <$> [S754_finite false 1 (-1); S754_finite false 1 (-5);
         S754_finite false 3 (-5); S754_finite true 1 (-20);
         S754_zero true; S754_finite false 1 70;
         S754_nan; S754_infinity false; S754_infinity true]
  = ["0.5000"; "0.0312"; "0.0938"; "-0.0000"; "-0.0000";
     "1180591620717411303424.0000"; "NaN"; "+Inf"; "-Inf"].
Proof. vm_compute. reflexivity. Qed.



(** *** Canonical numerals *)











(** *** Scalars *)




(** *** Sequences *)

(** A sequence of one element collapses to that element, for the element
    kinds that [valuesToStrings] lets through. *)
Lemma collapse_one (elem : reflect.Kind) (x : reflect.Value) :
  sequenceElem elem = true →
  reflect.KindOf x = elem →
  valueToString (reflect.SliceVal elem [x]) = valueToString x.
Proof.
  intros Helem Hx. rewrite valueToString_slice, valuesToStrings_slice, Helem.
  simpl. pose proof (valueToString_scalar x) as Hv. rewrite Hx in Hv.
  destruct (valueToString x) as [conv valid]. simpl in Hv.
  by rewrite (Hv Helem).
Qed.

(** A sequence of two or more such elements is not a single value. *)
Lemma collapse_many (elem : reflect.Kind) (x y : reflect.Value)
    (s : list reflect.Value) :
  reflect.wellTyped (reflect.SliceVal elem (x :: y :: s)) = true →
  valueToString (reflect.SliceVal elem (x :: y :: s)) = (EmptyString, false).
Proof.
  intros Hwt. rewrite valueToString_slice.
  destruct (sequenceElem elem) eqn:Helem.
  - by rewrite valuesToStrings_ok.
  - by rewrite valuesToStrings_slice, Helem.
Qed.

(** The strings [x] and [x, y] of the specification, as query values. *)
Lemma collapse_strings :
  valueToString (stringsValue ["x"]) = ("x", true)
  ∧ valueToString (stringsValue ["x"; "y"]) = (EmptyString, false)
  ∧ entries (valuesToMap {["k" := ["x"; "y"]]}) !! "k" = None
  ∧ entries (valuesToMultiMap {["k" := ["x"; "y"]]}) !! "k" = Some ["x"; "y"].
Proof.
  rewrite !valueToString_strings, valuesToMap_lookup, valuesToMultiMap_lookup.
  by rewrite lookup_singleton_eq.
Qed.

(** A sequence whose element kind is not let through is refused. *)
Lemma valuesToStrings_refused (elem : reflect.Kind) (s : list reflect.Value) :
  sequenceElem elem = false →
  valuesToStrings (reflect.SliceVal elem s) = ([], false).
Proof. intros Helem. by rewrite valuesToStrings_slice, Helem. Qed.






(** The case list of [valuesToStrings] is that of [valueToString] without
    [reflect.Uint64]: the scalar [uint64(7)] is coerced, a sequence of
    [uint64] is refused.  No call of the plugin passes such a sequence: the
    two functions are not exported, and all they are given are the
    [[]string] values of a parsed query. *)
Remark collapse_uint64 :
  reflect.wellTyped
    (reflect.SliceVal reflect.Uint64 [reflect.UintVal reflect.Uint64 7]) = true
  ∧ valueToString (reflect.UintVal reflect.Uint64 7) = ("7", true)
  ∧ valueToString
      (reflect.SliceVal reflect.Uint64 [reflect.UintVal reflect.Uint64 7])
    = (EmptyString, false).
Proof. repeat split. Qed.

Remark sequence_uint64 :
  (∀ k, sequenceElem k
        = scalarKind k && negb (bool_decide (k = reflect.Uint64)))
  ∧ valuesToStrings
      (reflect.SliceVal reflect.Uint64
         [reflect.UintVal reflect.Uint64 7; reflect.UintVal reflect.Uint64 8])
    = ([], false).
Proof. split; [by intros []|done]. Qed.

(** ** Base64: the streaming encoder *)

#[local] Arguments Nat.div : simpl never.
#[local] Arguments Nat.mul : simpl never.
#[local] Arguments Nat.sub : simpl never.

Lemma whole_blocks (k : nat) :
  (k / 3 * 3 ≤ k ∧ k - k / 3 * 3 < 3)%nat.
Proof.
  pose proof (Nat.div_mod_eq k 3). pose proof (Nat.mod_upper_bound k 3).
  lia.
Qed.

(** Whole blocks are encoded independently of what follows them. *)
Lemma Encode_blocks (n : nat) (a b : list ascii) :
  length a = (3 * n)%nat →
  base64.Encode (a ++ b) = base64.Encode a +:+ base64.Encode b.
Proof.
  revert a. induction n as [|n IH]; intros a Ha.
  - by destruct a.
  - destruct a as [|b0 [|b1 [|b2 a]]]; simpl in Ha; try lia.
    specialize (IH a ltac:(lia)).
    change (base64.Encode ((b0 :: b1 :: b2 :: a) ++ b))
      with (base64.Encode (b0 :: b1 :: b2 :: (a ++ b))).
    cbn [base64.Encode]. rewrite IH. reflexivity.
Qed.

Lemma NewEncoder_holds : holds base64.NewEncoder [].
Proof. exists 0%nat, []. by repeat split; simpl; try lia. Qed.

Lemma Write_holds (p : list ascii) (e : base64.encoder) (all : list ascii) :
  holds e all → holds (base64.Write p e) (all ++ p).
Proof.
  intros (n & whole & -> & Hwhole & Hout & Hbuf).
  unfold base64.Write.
  destruct (base64.buf e) as [|c0 pending] eqn:Hpending.
  - (* nothing pending *)
    rewrite bool_decide_eq_true_2 by done. simpl.
    change (drop 0 p) with p. change (take 0 p) with (@nil ascii).
    exists (n + length p / 3)%nat, (whole ++ take (length p / 3 * 3) p)%list.
    simpl. repeat split.
    + by rewrite app_nil_r, <- app_assoc, take_drop.
    + rewrite length_app, length_take, Hwhole.
      pose proof (whole_blocks (length p)). lia.
    + rewrite Hout, (Encode_blocks n) by done. done.
    + rewrite length_drop. pose proof (whole_blocks (length p)). lia.
  - rewrite bool_decide_eq_false_2 by done. simpl negb. cbv zeta.
    set (lead := Nat.min (length p) (3 - length (c0 :: pending))).
    set (block := ((c0 :: pending) ++ take lead p)%list).
    assert (length block = (length (c0 :: pending) + lead)%nat) as Hblock.
    { unfold block. rewrite length_app, length_take. lia. }
    destruct (length block <? 3)%nat eqn:Hshort; simpl andb; cbv iota.
    + (* the block is still short: all of [p] went into it *)
      apply Nat.ltb_lt in Hshort.
      exists n, whole. simpl. repeat split; try done; try lia.
      rewrite <- app_assoc. f_equal. unfold block. f_equal.
      rewrite take_ge; [done|]. lia.
    + apply Nat.ltb_ge in Hshort.
      set (rest := drop lead p).
      exists (n + 1 + length rest / 3)%nat,
        (whole ++ block ++ take (length rest / 3 * 3) rest)%list.
      cbn [base64.buf base64.out]. repeat split.
      * rewrite <- !app_assoc, take_drop. f_equal. unfold block, rest.
        by rewrite <- app_assoc, take_drop.
      * rewrite !length_app, length_take, Hwhole.
        pose proof (whole_blocks (length rest)). unfold lead in *. lia.
      * rewrite Hout, (Encode_blocks n) by done. f_equal.
        rewrite (Encode_blocks 1); [done|]. unfold lead in *. lia.
      * rewrite length_drop. pose proof (whole_blocks (length rest)). lia.
Qed.

Lemma Close_holds (e : base64.encoder) (all : list ascii) :
  holds e all → base64.out (base64.Close e) = base64.Encode all.
Proof.
  intros (n & whole & -> & Hwhole & Hout & Hbuf). simpl.
  by rewrite Hout, (Encode_blocks n).
Qed.

(** However the body is cut into chunks, the streaming encoder produces the
    encoding of the whole body. *)
Lemma stream_encode (chunks : list (list ascii)) :
  base64.out
    (base64.Close
       (fold_left (fun d p => base64.Write p d) chunks base64.NewEncoder))
  = base64.Encode (concat chunks).
Proof.
  apply Close_holds.
  assert (∀ e all, holds e all →
            holds (fold_left (fun d p => base64.Write p d) chunks e)
              (all ++ concat chunks)) as H.
  { induction chunks as [|p chunks IH]; intros e all He; simpl.
    - by rewrite app_nil_r.
    - rewrite app_assoc. by apply IH, Write_holds. }
  apply (H _ []), NewEncoder_holds.
Qed.

(** ** Base64: decoding what was encoded *)

Lemma lor_shiftl (a b n : Z) :
  0 ≤ n → 0 ≤ b < 2 ^ n → Z.lor (Z.shiftl a n) b = a * 2 ^ n + b.
Proof.
  intros Hn Hb.
  assert (Z.land (Z.shiftl a n) b = 0) as Hdisjoint.
  { apply Z.bits_inj'. intros m Hm.
    rewrite Z.land_spec, Z.bits_0.
    destruct (decide (m < n)) as [Hlt|Hge].
    - by rewrite Z.shiftl_spec_low.
    - destruct (decide (b = 0)) as [->|Hb0].
      + by rewrite Z.bits_0, andb_false_r.
      + rewrite (Z.bits_above_log2 b m), andb_false_r; [done|lia|].
        apply Z.log2_lt_pow2; [lia|].
        apply Z.lt_le_trans with (2 ^ n); [lia|].
        apply Z.pow_le_mono_r; lia. }
  rewrite <- Z.lxor_lor, <- Z.add_nocarry_lxor by done.
  by rewrite Z.shiftl_mul_pow2.
Qed.

Lemma lor_low (k b n : Z) :
  0 ≤ n → 0 ≤ b < 2 ^ n → Z.lor (k * 2 ^ n) b = k * 2 ^ n + b.
Proof.
  intros Hn Hb. rewrite <- (lor_shiftl k b n) by done.
  by rewrite Z.shiftl_mul_pow2.
Qed.

Lemma byteZ_bound (b : ascii) : 0 ≤ base64.byteZ b < 256.
Proof. unfold base64.byteZ. pose proof (N_ascii_bounded b). lia. Qed.

Lemma Zbyte_byteZ (b : ascii) (z : Z) :
  z mod 256 = base64.byteZ b → base64.Zbyte z = b.
Proof.
  intros Hz. unfold base64.Zbyte.
  change 255 with (Z.ones 8). rewrite Z.land_ones by lia.
  change (2 ^ 8) with 256. rewrite Hz. unfold base64.byteZ.
  rewrite N2Z.id. apply ascii_N_embedding.
Qed.

Lemma sextet_eq (v k : Z) : 0 ≤ k → sextet v k = (v / 2 ^ k) mod 64.
Proof.
  intros Hk. unfold sextet. change 63 with (Z.ones 6).
  by rewrite Z.land_ones, Z.shiftr_div_pow2 by lia.
Qed.

Lemma sextet_bound (v k : Z) : 0 ≤ k → 0 ≤ sextet v k < 64.
Proof. intros Hk. rewrite sextet_eq by done. apply Z.mod_pos_bound. lia. Qed.

Lemma sextet_low (v : Z) : Z.land v 63 = sextet v 0.
Proof. unfold sextet. by rewrite Z.shiftr_0_r. Qed.

(** Three bytes side by side, and four sextets side by side. *)
Lemma bytes_value (x y z : Z) :
  0 ≤ x < 256 → 0 ≤ y < 256 → 0 ≤ z < 256 →
  Z.lor (Z.lor (Z.shiftl x 16) (Z.shiftl y 8)) z = x * 65536 + y * 256 + z.
Proof.
  intros Hx Hy Hz. rewrite !Z.shiftl_mul_pow2 by lia.
  rewrite (lor_low x (y * 2 ^ 8) 16) by lia.
  replace (x * 2 ^ 16 + y * 2 ^ 8) with ((x * 256 + y) * 2 ^ 8) by lia.
  rewrite lor_low by lia. lia.
Qed.

Lemma sextets_value (i0 i1 i2 i3 : Z) :
  0 ≤ i0 < 64 → 0 ≤ i1 < 64 → 0 ≤ i2 < 64 → 0 ≤ i3 < 64 →
  Z.lor (Z.lor (Z.lor (Z.shiftl i0 18) (Z.shiftl i1 12)) (Z.shiftl i2 6)) i3
  = i0 * 262144 + i1 * 4096 + i2 * 64 + i3.
Proof.
  intros H0 H1 H2 H3. rewrite !Z.shiftl_mul_pow2 by lia.
  rewrite (lor_low i0 (i1 * 2 ^ 12) 18) by lia.
  replace (i0 * 2 ^ 18 + i1 * 2 ^ 12) with ((i0 * 64 + i1) * 2 ^ 12) by lia.
  rewrite (lor_low _ (i2 * 2 ^ 6) 12) by lia.
  replace ((i0 * 64 + i1) * 2 ^ 12 + i2 * 2 ^ 6)
    with (((i0 * 64 + i1) * 64 + i2) * 2 ^ 6) by lia.
  rewrite lor_low by lia. lia.
Qed.

(** The alphabet: [decodeMap] inverts [encode], and no letter is a line
    break. *)
Lemma alphabet (i : Z) :
  0 ≤ i < 64 →
  base64.decodeMap (base64.encode i) = Some i
  ∧ base64.isNewline (base64.encode i) = false.
Proof.
  intros Hi.
  assert (forallb
            (fun i =>
               bool_decide (base64.decodeMap (base64.encode i) = Some i)
               && negb (base64.isNewline (base64.encode i)))
            (seqZ 0 64) = true) as Hall by (vm_compute; reflexivity).
  rewrite forallb_forall in Hall.
  assert (In i (seqZ 0 64)) as Hin by (apply list_elem_of_In, elem_of_seqZ; lia).
  apply Hall, andb_prop in Hin as [H1 H2].
  apply bool_decide_eq_true in H1. by apply negb_true_iff in H2.
Qed.

Lemma decodeMap_sextet (v k : Z) :
  0 ≤ k → base64.decodeMap (base64.encode (sextet v k)) = Some (sextet v k).
Proof. intros Hk. by apply alphabet, sextet_bound. Qed.

Lemma isNewline_sextet (v k : Z) :
  0 ≤ k → base64.isNewline (base64.encode (sextet v k)) = false.
Proof. intros Hk. by apply alphabet, sextet_bound. Qed.

(** The bytes come back from the sextets of a whole block and of the two
    kinds of last block. *)
Lemma decode_block (x y z : Z) :
  0 ≤ x < 256 → 0 ≤ y < 256 → 0 ≤ z < 256 →
  let v := Z.lor (Z.lor (Z.shiftl x 16) (Z.shiftl y 8)) z in
  let v' :=
    Z.lor (Z.lor (Z.lor (Z.shiftl (sextet v 18) 18) (Z.shiftl (sextet v 12) 12))
             (Z.shiftl (sextet v 6) 6)) (sextet v 0) in
  Z.shiftr v' 16 mod 256 = x ∧ Z.shiftr v' 8 mod 256 = y ∧ v' mod 256 = z.
Proof.
  intros Hx Hy Hz v v'.
  assert (v = x * 65536 + y * 256 + z) as Hv by by apply bytes_value.
  assert (v' = v) as ->.
  { unfold v'. rewrite sextets_value by (apply sextet_bound; lia).
    rewrite !sextet_eq by lia. clearbody v. clear v'.
    change (2 ^ 18) with 262144. change (2 ^ 12) with 4096.
    change (2 ^ 6) with 64. change (2 ^ 0) with 1.
    Z.div_mod_to_equations. lia. }
  rewrite !Z.shiftr_div_pow2 by lia. clearbody v.
  change (2 ^ 16) with 65536. change (2 ^ 8) with 256.
  repeat split; Z.div_mod_to_equations; lia.
Qed.

Lemma decode_block2 (x y : Z) :
  0 ≤ x < 256 → 0 ≤ y < 256 →
  let v := Z.lor (Z.shiftl x 16) (Z.shiftl y 8) in
  let v' :=
    Z.lor (Z.lor (Z.shiftl (sextet v 18) 18) (Z.shiftl (sextet v 12) 12))
      (Z.shiftl (sextet v 6) 6) in
  Z.shiftr v' 16 mod 256 = x ∧ Z.shiftr v' 8 mod 256 = y.
Proof.
  intros Hx Hy v v'.
  pose proof (bytes_value x y 0 Hx Hy ltac:(lia)) as Hv.
  rewrite Z.lor_0_r in Hv. fold v in Hv.
  pose proof (sextets_value (sextet v 18) (sextet v 12) (sextet v 6) 0) as Hv'.
  rewrite Z.lor_0_r in Hv'. fold v' in Hv'.
  rewrite Hv' by (try apply sextet_bound; lia).
  rewrite !sextet_eq, !Z.shiftr_div_pow2 by lia. clearbody v. clear v' Hv'.
  change (2 ^ 18) with 262144. change (2 ^ 12) with 4096.
  change (2 ^ 6) with 64. change (2 ^ 16) with 65536. change (2 ^ 8) with 256.
  split; Z.div_mod_to_equations; lia.
Qed.

Lemma decode_block1 (x : Z) :
  0 ≤ x < 256 →
  let v := Z.shiftl x 16 in
  let v' := Z.lor (Z.shiftl (sextet v 18) 18) (Z.shiftl (sextet v 12) 12) in
  Z.shiftr v' 16 mod 256 = x.
Proof.
  intros Hx v v'.
  assert (v = x * 65536) as Hv by (unfold v; rewrite Z.shiftl_mul_pow2; lia).
  pose proof (sextets_value (sextet v 18) (sextet v 12) 0 0) as Hv'.
  rewrite Z.shiftl_0_l, !Z.lor_0_r in Hv'. fold v' in Hv'.
  rewrite Hv' by (try apply sextet_bound; lia).
  rewrite !sextet_eq, !Z.shiftr_div_pow2 by lia. clearbody v. clear v' Hv'.
  change (2 ^ 18) with 262144. change (2 ^ 12) with 4096.
  change (2 ^ 16) with 65536.
  Z.div_mod_to_equations; lia.
Qed.

(** Induction on a list, three elements at a time. *)
Lemma list_ind3 {A} (P : list A → Prop) :
  P [] → (∀ a, P [a]) → (∀ a b, P [a; b]) →
  (∀ a b c l, P l → P (a :: b :: c :: l)) →
  ∀ l, P l.
Proof.
  intros H0 H1 H2 H3. fix IH 1.
  intros [|a [|b [|c l]]]; [apply H0|apply H1|apply H2|apply H3, IH].
Qed.

(** [Encode] written with [sextet]. *)
Lemma Encode_sextets (src : list ascii) :
  base64.Encode src =
  match src with
  | [] => EmptyString
  | [b0] =>
      let v := Z.shiftl (base64.byteZ b0) 16 in
      String (base64.encode (sextet v 18))
        (String (base64.encode (sextet v 12))
           (String base64.padChar (String base64.padChar EmptyString)))
  | [b0; b1] =>
      let v :=
        Z.lor (Z.shiftl (base64.byteZ b0) 16) (Z.shiftl (base64.byteZ b1) 8) in
      String (base64.encode (sextet v 18))
        (String (base64.encode (sextet v 12))
           (String (base64.encode (sextet v 6))
              (String base64.padChar EmptyString)))
  | b0 :: b1 :: b2 :: rest =>
      let v :=
        Z.lor (Z.lor (Z.shiftl (base64.byteZ b0) 16)
                 (Z.shiftl (base64.byteZ b1) 8)) (base64.byteZ b2) in
      String (base64.encode (sextet v 18))
        (String (base64.encode (sextet v 12))
           (String (base64.encode (sextet v 6))
              (String (base64.encode (sextet v 0)) (base64.Encode rest))))
  end.
Proof.
  destruct src as [|b0 [|b1 [|b2 rest]]]; reflexivity.
Qed.

Lemma decodeQuanta_Encode (src : list ascii) :
  base64.decodeQuanta (list_ascii_of_string (base64.Encode src)) = Some src.
Proof.
  induction src as [|b0|b0 b1|b0 b1 b2 src IH] using list_ind3;
    rewrite Encode_sextets; [reflexivity|..]; cbv zeta;
    cbn [list_ascii_of_string base64.decodeQuanta];
    rewrite !decodeMap_sextet by lia; cbn [mbind option_bind].
  - change (base64.decodeMap base64.padChar) with (@None Z). cbv iota.
    change (Ascii.eqb base64.padChar base64.padChar) with true.
    rewrite bool_decide_eq_true_2 by done. cbn [andb].
    do 2 f_equal. apply Zbyte_byteZ, decode_block1, byteZ_bound.
  - change (base64.decodeMap base64.padChar) with (@None Z). cbv iota.
    change (Ascii.eqb base64.padChar base64.padChar) with true.
    rewrite bool_decide_eq_true_2 by done. cbn [andb].
    destruct (decode_block2 (base64.byteZ b0) (base64.byteZ b1))
      as [H0 H1]; [apply byteZ_bound..|].
    f_equal. f_equal; [|f_equal]; by apply Zbyte_byteZ.
  - rewrite IH. cbn [mbind option_bind].
    destruct (decode_block (base64.byteZ b0) (base64.byteZ b1)
                (base64.byteZ b2)) as (H0 & H1 & H2); [apply byteZ_bound..|].
    f_equal. f_equal; [|f_equal; [|f_equal]]; by apply Zbyte_byteZ.
Qed.

Lemma Encode_no_newline (src : list ascii) :
  List.filter (fun c => negb (base64.isNewline c))
    (list_ascii_of_string (base64.Encode src))
  = list_ascii_of_string (base64.Encode src).
Proof.
  induction src as [|b0|b0 b1|b0 b1 b2 src IH] using list_ind3;
    rewrite Encode_sextets; [reflexivity|..]; cbv zeta;
    cbn [list_ascii_of_string List.filter];
    rewrite !isNewline_sextet by lia; cbn [negb];
    change (base64.isNewline base64.padChar) with false; cbn [negb];
    by rewrite ?IH.
Qed.

(** What [Encode] produces, [DecodeString] takes back. *)
Lemma DecodeString_Encode (src : list ascii) :
  base64.DecodeString (base64.Encode src) = Some src.
Proof.
  unfold base64.DecodeString.
  by rewrite Encode_no_newline, decodeQuanta_Encode.
Qed.

(** The test vectors of RFC 4648. *)
Example Encode_rfc4648 :
  (fun s => base64.Encode (list_ascii_of_string s))
    <$> [""; "f"; "fo"; "foo"; "foob"; "fooba"; "foobar"]
  = [""; "Zg=="; "Zm8="; "Zm9v"; "Zm9vYg=="; "Zm9vYmE="; "Zm9vYmFy"].
Proof. reflexivity. Qed.

(** Padding that is missing, misplaced or followed by more text is refused;
    line breaks are skipped. *)
Example DecodeString_refuses :
  base64.DecodeString
    <$> ["Zg"; "Zg="; "Z==="; "Zg==Zg=="; "Zm9v!"; "=Zm9"]
  = [None; None; None; None; None; None]
  ∧ base64.DecodeString (String "Z" (String "010" (String "g" "=="))) = Some ["f"%char].
Proof. split; reflexivity. Qed.

(** ** The handler *)

Section Handler.

Context {B W : Type} `{!lambda.API B} `{!http.ResponseWriter W} `{!json.Codec}.
Context `{Hsession : !session.Env}.

Lemma bodyToBase64_eq (req : http.Request) (w : World B W) :
  bodyToBase64 req w =
  if bool_decide (http.ContentLength req = 0) then (Returns (false, EmptyString), w)
  else
    match io.failure (inbound w) with
    | Some err => (Panics err, drained w)
    | None =>
        (Returns (true, base64.Encode (concat (io.chunks (inbound w)))),
         drained w)
    end.
Proof.
  unfold bodyToBase64. case_bool_decide; [done|].
  unfold mbind, M_bind, copyBody, io.Copy, drained.
  change (negb false) with true. cbv beta iota.
  destruct (io.failure (inbound w)) as [err|]; [done|].
  unfold mret, M_ret. by rewrite stream_encode.
Qed.

(** C3.  With a declared length of zero the envelope has the empty body and
    [isBase64Encoded] false, and the body stream is not touched.  With any
    other declared length the stream is read to its end; the envelope then
    has the base64 encoding of all the bytes read as its body, and
    [isBase64Encoded] true.  (If reading fails, the request panics with the
    read error and no envelope is built.) *)
Theorem envelope_body (req : http.Request) (w : World B W) :
  (http.ContentLength req = 0 →
   ∃ env,
     requestEnvelope req w = (Returns env, w)
     ∧ LambdaRequest.Body env = EmptyString
     ∧ LambdaRequest.IsBase64Encoded env = false)
  ∧ (http.ContentLength req ≠ 0 →
     io.failure (inbound w) = None →
     ∃ env w',
       requestEnvelope req w = (Returns env, w')
       ∧ io.chunks (inbound w') = []
       ∧ LambdaRequest.Body env
         = base64.Encode (concat (io.chunks (inbound w)))
       ∧ LambdaRequest.IsBase64Encoded env = true)
  ∧ (http.ContentLength req ≠ 0 →
     ∀ err, io.failure (inbound w) = Some err →
     ∃ w', requestEnvelope req w = (Panics err, w')).
Proof.
  unfold requestEnvelope, mbind, M_bind. rewrite bodyToBase64_eq.
  repeat split.
  - intros Hlen. rewrite bool_decide_eq_true_2 by done.
    by eexists.
  - intros Hlen Hread. rewrite bool_decide_eq_false_2, Hread by done.
    by eexists _, _.
  - intros Hlen err Hread. rewrite bool_decide_eq_false_2, Hread by done.
    by eexists.
Qed.

(** Building the envelope leaves the backend and the response writer alone. *)
Lemma requestEnvelope_frame (req : http.Request) (w w' : World B W)
    (r : Outcome LambdaRequest.t) :
  requestEnvelope req w = (r, w') →
  backend w' = backend w ∧ outbound w' = outbound w.
Proof.
  unfold requestEnvelope, mbind, M_bind. rewrite bodyToBase64_eq.
  case_bool_decide; [|destruct (io.failure (inbound w))];
    intros [= <- <-]; done.
Qed.

(** So does the invocation, whatever its outcome. *)
Lemma invokeFunction_frame (a : AwsLambdaPlugin B W) (request : LambdaRequest.t)
    (w w' : World B W) (r : Outcome LambdaResponse.t) :
  invokeFunction a request w = (r, w') →
  inbound w' = inbound w ∧ outbound w' = outbound w.
Proof.
  unfold invokeFunction.
  destruct (json.Marshal request) as [payload|err]; [|by intros [= <- <-]].
  unfold mbind, M_bind, clientInvoke.
  destruct (lambda.Invoke _ _ _) as [[output|err] b]; [|by intros [= <- <-]].
  destruct (lambda.StatusCode output) as [code|]; [|by intros [= <- <-]].
  destruct (negb (bool_decide (code = 200))); [by intros [= <- <-]|].
  destruct (json.Unmarshal _); by intros [= <- <-].
Qed.

(** [ServeHTTP] is its stages, one after the other. *)
Lemma ServeHTTP_stages (a : AwsLambdaPlugin B W) (req : http.Request)
    (w : World B W) :
  ServeHTTP a req w =
  match requestEnvelope req w with
  | (Panics err, w1) => (Panics err, w1)
  | (Returns env, w1) =>
      match invokeFunction a env w1 with
      | (Panics err, w2) => (Panics err, w2)
      | (Returns resp, w2) =>
          if LambdaResponse.IsBase64Encoded resp then
            match base64.DecodeString (LambdaResponse.Body resp) with
            | None => (Panics "illegal base64 data", w2)
            | Some buf => writeResponse resp (string_of_list_ascii buf) w2
            end
          else writeResponse resp (LambdaResponse.Body resp) w2
      end
  end.
Proof.
  unfold ServeHTTP, requestEnvelope, mbind, M_bind.
  destruct (bodyToBase64 req w) as [[[base64Encoded body]|err] w1]; [|done].
  unfold mret, M_ret.
  destruct (invokeFunction a (envelope req base64Encoded body) w1)
    as [[resp|err] w2]; [|done].
  destruct (LambdaResponse.IsBase64Encoded resp); [|done].
  by destruct (base64.DecodeString (LambdaResponse.Body resp)).
Qed.

(** C7.  When the one call to the backend fails or answers with a status
    other than 200, [ServeHTTP] panics; the backend has then seen exactly
    that one call, and the response writer is as it was before the request:
    no header was set, no status and no byte written. *)
Theorem failed_invocation_aborts (a : AwsLambdaPlugin B W) (req : http.Request)
    (w w1 : World B W) (env : LambdaRequest.t) (payload : list ascii)
    (result : lambda.InvokeOutput + error) (b' : B) :
  requestEnvelope req w = (Returns env, w1) →
  json.Marshal env = inl payload →
  lambda.Invoke (client a)
    {| lambda.FunctionName := functionArn a; lambda.Payload := payload |}
    (backend w1) = (result, b') →
  failed result →
  ∃ err,
    ServeHTTP a req w
    = (Panics err,
       {| inbound := inbound w1; backend := b'; outbound := outbound w |}).
Proof.
  intros Henv Hpayload Hinvoke Hfailed.
  destruct (requestEnvelope_frame _ _ _ _ Henv) as [_ Hrw].
  rewrite ServeHTTP_stages, Henv.
  unfold invokeFunction. rewrite Hpayload.
  unfold mbind, M_bind, clientInvoke. rewrite Hinvoke, <- Hrw.
  destruct result as [output|err]; [|by eexists].
  simpl in Hfailed.
  destruct (lambda.StatusCode output) as [code|]; [|by eexists].
  rewrite bool_decide_eq_false_2 by congruence. by eexists.
Qed.

(** C8.  Once the backend has answered with [resp], in the world [w2] whose
    response writer is still the one the request came with: if
    [isBase64Encoded] is set, the body is decoded first, and what
    [ServeHTTP] writes is the decoded text; if it does not decode,
    [ServeHTTP] panics and the writer stays untouched.  If the flag is not
    set, the body is written as it is. *)
Theorem response_body (a : AwsLambdaPlugin B W) (req : http.Request)
    (w w1 w2 : World B W) (env : LambdaRequest.t) (resp : LambdaResponse.t) :
  requestEnvelope req w = (Returns env, w1) →
  invokeFunction a env w1 = (Returns resp, w2) →
  outbound w2 = outbound w
  ∧ ServeHTTP a req w =
    if LambdaResponse.IsBase64Encoded resp then
      match base64.DecodeString (LambdaResponse.Body resp) with
      | Some buf => writeResponse resp (string_of_list_ascii buf) w2
      | None => (Panics "illegal base64 data", w2)
      end
    else writeResponse resp (LambdaResponse.Body resp) w2.
Proof.
  intros Henv Hresp. split.
  - destruct (requestEnvelope_frame _ _ _ _ Henv) as [_ <-].
    by destruct (invokeFunction_frame _ _ _ _ _ Hresp) as [_ ->].
  - rewrite ServeHTTP_stages, Henv, Hresp.
    destruct (LambdaResponse.IsBase64Encoded resp); [|done].
    by destruct (base64.DecodeString (LambdaResponse.Body resp)).
Qed.

(** C10.  Two plugins made by [New] from the same configuration, each with
    its own [next] handler, hold the handler they were given and serve every
    request in the same way: what [ServeHTTP] does never depends on [next]. *)
Theorem next_never_served (next1 next2 : Handler B W) (config : Config)
    (name : string) (a1 a2 : AwsLambdaPlugin B W) :
  New next1 config name = Returns (inl a1) →
  New next2 config name = Returns (inl a2) →
  next a1 = next1
  ∧ next a2 = next2
  ∧ ∀ (req : http.Request) (w : World B W),
      ServeHTTP a1 req w = ServeHTTP a2 req w.
Proof.
  unfold New. case_bool_decide; [discriminate|].
  destruct (session.Must _) as [sess|err]; [|discriminate].
  by intros [= <-] [= <-].
Qed.

End Handler.

(** ** The handler at work *)

(** The envelope of the test request, as the repository's test expects it. *)
Example TestInvoke_envelope :
  let env := envelope mock.request true "VGhpcyBpcyB0aGUgYm9keQ==" in
  LambdaRequest.HTTPMethod env = "POST"
  ∧ LambdaRequest.Path env = "/this/path/is/not/empty"
  ∧ LambdaRequest.QueryStringParameters env
    = Some (<["a" := "1"]> (<["b" := "2"]> ∅))
  ∧ LambdaRequest.MultiValueQueryStringParameters env
    = Some (<["c" := ["3"; "4"]]> (<["d[]" := ["5"; "6"]]> ∅))
  ∧ LambdaRequest.Headers env = Some (<["Content-Type" := "text/plain"]> ∅)
  ∧ LambdaRequest.MultiValueHeaders env
    = Some (<["X-Test" := ["foo"; "foobar"]]> ∅).
Proof. repeat split; vm_compute; reflexivity. Qed.

(** The answer of the repository's test, status 500 without body or
    headers, reaches the recorder as it is. *)
Example TestInvoke_response :
  ServeHTTP (mock.plugin (fun _ => panic "next")) mock.request
    (mock.world [mock.plainAnswer])
  = (Returns tt,
     {| inbound := mock.readToEnd;
        backend := {| mock.script := []; mock.calls := [mock.sentInput] |};
        outbound :=
          {| httptest.Code := 500; httptest.HeaderMap := ∅;
             httptest.Body := [];
             httptest.wroteHeader := true |} |}).
Proof. vm_compute. reflexivity. Qed.

Lemma envelope_body_witness :
  (∃ env,
     requestEnvelope
       {| http.Method := "GET"; http.URL_Path := "/";
          http.URL_RawQuery := EmptyString; http.Req_Header := None;
          http.ContentLength := 0 |} (mock.world [])
     = (Returns env, mock.world [])
     ∧ LambdaRequest.Body env = EmptyString
     ∧ LambdaRequest.IsBase64Encoded env = false)
  ∧ (∃ env w',
       requestEnvelope mock.request (mock.world []) = (Returns env, w')
       ∧ io.chunks (inbound w') = []
       ∧ LambdaRequest.Body env = "VGhpcyBpcyB0aGUgYm9keQ=="
       ∧ LambdaRequest.IsBase64Encoded env = true).
Proof.
  split.
  - apply (proj1 (envelope_body _ (mock.world []))). reflexivity.
  - apply (proj1 (proj2 (envelope_body mock.request (mock.world [])))).
    + discriminate.
    + reflexivity.
Defined.

Lemma failed_invocation_aborts_witness :
  ∃ err,
    ServeHTTP (mock.plugin (fun _ => panic "next")) mock.request
      (mock.world [mock.refusedAnswer])
    = (Panics err,
       {| inbound := mock.readToEnd;
          backend := {| mock.script := []; mock.calls := [mock.sentInput] |};
          outbound := httptest.NewRecorder |}).
Proof.
  apply (failed_invocation_aborts (mock.plugin (fun _ => panic "next"))
           mock.request (mock.world [mock.refusedAnswer])
           (drained (mock.world [mock.refusedAnswer]))
           (envelope mock.request true "VGhpcyBpcyB0aGUgYm9keQ==")
           (lambda.Payload mock.sentInput) mock.refusedAnswer
           {| mock.script := []; mock.calls := [mock.sentInput] |}).
  - reflexivity.
  - reflexivity.
  - reflexivity.
  - simpl. discriminate.
Defined.

Lemma response_body_witness :
  ServeHTTP (mock.plugin (fun _ => panic "next")) mock.request
    (mock.world [mock.encodedAnswer])
  = (Returns tt,
     {| inbound := mock.readToEnd;
        backend := {| mock.script := []; mock.calls := [mock.sentInput] |};
        outbound :=
          {| httptest.Code := 200; httptest.HeaderMap := ∅;
             httptest.Body := list_ascii_of_string "hi";
             httptest.wroteHeader := true |} |}).
Proof.
  destruct (response_body (mock.plugin (fun _ => panic "next")) mock.request
              (mock.world [mock.encodedAnswer])
              (drained (mock.world [mock.encodedAnswer]))
              {| inbound := mock.readToEnd;
                 backend :=
                   {| mock.script := []; mock.calls := [mock.sentInput] |};
                 outbound := httptest.NewRecorder |}
              (envelope mock.request true "VGhpcyBpcyB0aGUgYm9keQ==")
              {| LambdaResponse.StatusCode := 200;
                 LambdaResponse.StatusDescription := EmptyString;
                 LambdaResponse.IsBase64Encoded := true;
                 LambdaResponse.Headers := None;
                 LambdaResponse.MultiValueHeaders := None;
                 LambdaResponse.Body := "aGk=" |})
    as [_ ->]; [reflexivity..|].
  vm_compute. reflexivity.
Defined.

Lemma next_never_served_witness :
  let a1 := mock.plugin (fun _ => panic "next") in
  let a2 := mock.plugin (fun _ => rwWriteHeader 404) in
  next a1 = (fun _ => panic "next")
  ∧ next a2 = (fun _ => rwWriteHeader 404)
  ∧ ∀ req w, ServeHTTP a1 req w = ServeHTTP a2 req w.
Proof.
  apply (next_never_served (Hsession := mock.env) _ _ mock.config "lambda-plugin");
    reflexivity.
Defined.

(** ** What the recorder receives *)

Section Recorder.

Context {B : Type} `{!lambda.API B} `{!json.Codec}.

Lemma headersOnly_ret : headersOnly B (M_ret unit tt).
Proof.
  intros [? ? []]. by exists HeaderMap.
Qed.

Lemma headersOnly_seq (m1 m2 : M B httptest.ResponseRecorder unit) :
  headersOnly B m1 → headersOnly B m2 →
  headersOnly B (M_bind _ _ (fun _ => m2) m1).
Proof.
  intros H1 H2 w. unfold M_bind.
  destruct (H1 w) as [h1 ->]. destruct (H2 (withHeaderMap h1 w)) as [h2 ->].
  by exists h2.
Qed.

Lemma headersOnly_Set (key value : string) :
  headersOnly B (rwHeaderSet key value).
Proof. intros w. by eexists. Qed.

Lemma headersOnly_Add (key value : string) :
  headersOnly B (rwHeaderAdd key value).
Proof. intros w. by eexists. Qed.

Lemma setHeaders_headersOnly (headers : GoMap string) :
  headersOnly B (setHeaders headers).
Proof.
  unfold setHeaders.
  apply (map_fold_weak_ind (fun m _ => headersOnly B m)).
  - apply headersOnly_ret.
  - intros key value _ rest _ IH.
    apply headersOnly_seq; [done|apply headersOnly_Set].
Qed.

Lemma addHeaders_headersOnly (headers : GoMap (list string)) :
  headersOnly B (addHeaders headers).
Proof.
  unfold addHeaders.
  apply (map_fold_weak_ind (fun m _ => headersOnly B m)).
  - apply headersOnly_ret.
  - intros key values _ rest _ IH.
    apply headersOnly_seq; [done|].
    assert (∀ acc, headersOnly B acc →
              headersOnly B
                (fold_left
                   (fun (acc : M B httptest.ResponseRecorder unit) value =>
                      M_bind _ _ (fun _ => rwHeaderAdd key value) acc)
                   values acc)) as Hloop.
    { induction values as [|value values IHv]; intros acc Hacc; [done|].
      apply IHv, headersOnly_seq; [done|apply headersOnly_Add]. }
    apply Hloop, headersOnly_ret.
Qed.

(** On a fresh recorder, with a status code that [WriteHeader] accepts and
    that allows a body, the last stage of [ServeHTTP] records that status
    and appends the bytes of [body] to the recorded body. *)
Lemma writeResponse_recorded (resp : LambdaResponse.t) (body : string)
    (w : World B httptest.ResponseRecorder) :
  httptest.wroteHeader (outbound w) = false →
  100 ≤ LambdaResponse.StatusCode resp ≤ 999 →
  httptest.bodyAllowedForStatus (LambdaResponse.StatusCode resp) = true →
  ∃ h,
    writeResponse resp body w
    = (Returns tt,
       {| inbound := inbound w;
          backend := backend w;
          outbound :=
            {| httptest.Code := LambdaResponse.StatusCode resp;
               httptest.HeaderMap := h;
               httptest.Body :=
                 (httptest.Body (outbound w) ++ list_ascii_of_string body)%list;
               httptest.wroteHeader := true |} |}).
Proof.
  intros Hfresh Hcode Hallowed. unfold writeResponse, mbind, M_bind.
  destruct (setHeaders_headersOnly (LambdaResponse.Headers resp) w) as [h1 ->].
  destruct (addHeaders_headersOnly (LambdaResponse.MultiValueHeaders resp)
              (withHeaderMap h1 w)) as [h2 ->].
  exists h2. unfold rwWriteHeader, rwWrite, onWriter. simpl.
  unfold httptest.WriteHeader. simpl. rewrite Hfresh.
  replace (LambdaResponse.StatusCode resp <? 100) with false
    by (symmetry; apply Z.ltb_ge; lia).
  replace (999 <? LambdaResponse.StatusCode resp) with false
    by (symmetry; apply Z.ltb_ge; lia).
  simpl. unfold httptest.Write. simpl. by rewrite Hallowed.
Qed.

(** With a status code that [WriteHeader] accepts but that allows no body,
    the status is recorded and the write is refused: the last stage panics
    with the error of [Write], and the recorded body stays as it was. *)
Lemma writeResponse_refused (resp : LambdaResponse.t) (body : string)
    (w : World B httptest.ResponseRecorder) :
  httptest.wroteHeader (outbound w) = false →
  100 ≤ LambdaResponse.StatusCode resp ≤ 999 →
  httptest.bodyAllowedForStatus (LambdaResponse.StatusCode resp) = false →
  ∃ h,
    writeResponse resp body w
    = (Panics "http: request method or response status code does not allow body",
       {| inbound := inbound w;
          backend := backend w;
          outbound :=
            {| httptest.Code := LambdaResponse.StatusCode resp;
               httptest.HeaderMap := h;
               httptest.Body := httptest.Body (outbound w);
               httptest.wroteHeader := true |} |}).
Proof.
  intros Hfresh Hcode Hrefused. unfold writeResponse, mbind, M_bind.
  destruct (setHeaders_headersOnly (LambdaResponse.Headers resp) w) as [h1 ->].
  destruct (addHeaders_headersOnly (LambdaResponse.MultiValueHeaders resp)
              (withHeaderMap h1 w)) as [h2 ->].
  exists h2. unfold rwWriteHeader, rwWrite, onWriter. simpl.
  unfold httptest.WriteHeader. simpl. rewrite Hfresh.
  replace (LambdaResponse.StatusCode resp <? 100) with false
    by (symmetry; apply Z.ltb_ge; lia).
  replace (999 <? LambdaResponse.StatusCode resp) with false
    by (symmetry; apply Z.ltb_ge; lia).
  simpl. unfold httptest.Write. simpl. by rewrite Hrefused.
Qed.

(** A body that the function encoded with base64 arrives at the recorder as
    the bytes it stood for. *)
Lemma encoded_body_recorded (a : AwsLambdaPlugin B httptest.ResponseRecorder)
    (req : http.Request) (w w1 w2 : World B httptest.ResponseRecorder)
    (env : LambdaRequest.t) (resp : LambdaResponse.t) (bytes : list ascii) :
  requestEnvelope req w = (Returns env, w1) →
  invokeFunction a env w1 = (Returns resp, w2) →
  LambdaResponse.IsBase64Encoded resp = true →
  LambdaResponse.Body resp = base64.Encode bytes →
  httptest.wroteHeader (outbound w2) = false →
  100 ≤ LambdaResponse.StatusCode resp ≤ 999 →
  httptest.bodyAllowedForStatus (LambdaResponse.StatusCode resp) = true →
  ∃ h,
    ServeHTTP a req w
    = (Returns tt,
       {| inbound := inbound w2;
          backend := backend w2;
          outbound :=
            {| httptest.Code := LambdaResponse.StatusCode resp;
               httptest.HeaderMap := h;
               httptest.Body := (httptest.Body (outbound w2) ++ bytes)%list;
               httptest.wroteHeader := true |} |}).
Proof.
  intros Henv Hresp Hflag Hbody Hfresh Hcode Hallowed.
  rewrite ServeHTTP_stages, Henv, Hresp, Hflag, Hbody, DecodeString_Encode.
  destruct (writeResponse_recorded resp (string_of_list_ascii bytes) w2)
    as [h ->]; [done..|].
  exists h. by rewrite list_ascii_of_string_of_list_ascii.
Qed.

End Recorder.

(** * More of the plugin *)

(** ** Construction *)

Lemma length_zero (s : string) : String.length s = 0%nat ↔ s = EmptyString.
Proof. by destruct s. Qed.

Lemma length_positive (s : string) :
  (0 <? String.length s)%nat = false ↔ s = EmptyString.
Proof. by destruct s. Qed.

Section Construction.

Context {B W : Type} `{Hsession : !session.Env}.

(** X1.  [New] looks at the function ARN before it makes the session.  With
    an empty ARN it returns the error [function arn cannot be empty] in
    every environment, and does not panic.  With any other ARN it panics
    exactly when the session cannot be made, with the error of that;
    otherwise it returns a plugin that holds the ARN, the name and the next
    handler it was given, and a client on the session that was made. *)
Theorem New_arn (handler : Handler B W) (config : Config) (label : string) :
  (FunctionArn config = EmptyString →
   New handler config label = Returns (inr "function arn cannot be empty"))
  ∧ (FunctionArn config ≠ EmptyString →
     match
       session.NewSessionWithOptions
         {| session.SharedConfigState := session.SharedConfigEnable |}
     with
     | inr err => New handler config label = Panics err
     | inl sess =>
         ∃ a : AwsLambdaPlugin B W,
           New handler config label = Returns (inl a)
           ∧ functionArn a = FunctionArn config
           ∧ name a = label
           ∧ next a = handler
           ∧ lambda.ConfigProvider (client a) = sess
     end).
Proof.
  unfold New. split; intros Harn.
  - by rewrite Harn.
  - rewrite bool_decide_eq_false_2 by (by rewrite length_zero).
    destruct (session.NewSessionWithOptions _) as [sess|err]; [|done].
    by eexists.
Qed.

(** The configuration of [CreateConfig] has to be completed: as it is,
    [New] refuses it. *)
Lemma New_CreateConfig (next : Handler B W) (name : string) :
  New next CreateConfig name = Returns (inr "function arn cannot be empty").
Proof. reflexivity. Qed.

(** X2.  The client of a plugin made by [New] has static credentials only
    if the access key and the secret key are both given, and then these
    two; a key given without the other is dropped.  Region and endpoint are
    passed on as they are, and left out when empty. *)
Theorem New_client (handler : Handler B W) (config : Config) (label : string)
    (a : AwsLambdaPlugin B W) :
  New handler config label = Returns (inl a) →
  (lambda.Credentials (client a) = None
   ↔ AccessKey config = EmptyString ∨ SecretKey config = EmptyString)
  ∧ (∀ creds, lambda.Credentials (client a) = Some creds →
       creds = (AccessKey config, SecretKey config))
  ∧ (lambda.Region (client a) = None ↔ Region config = EmptyString)
  ∧ (∀ region, lambda.Region (client a) = Some region →
       region = Region config)
  ∧ (lambda.Endpoint (client a) = None ↔ Endpoint config = EmptyString)
  ∧ (∀ endpoint, lambda.Endpoint (client a) = Some endpoint →
       endpoint = Endpoint config).
Proof.
  unfold New. case_bool_decide; [discriminate|].
  destruct (session.Must _) as [sess|err]; [|discriminate].
  intros [= <-]. simpl.
  destruct (AccessKey config) as [|? ?], (SecretKey config) as [|? ?],
    (Region config) as [|? ?], (Endpoint config) as [|? ?]; simpl;
    repeat split; intros; simplify_eq; auto; try discriminate;
    by destruct_or?.
Qed.

End Construction.

Lemma New_arn_witness :
  (∃ a : AwsLambdaPlugin mock.Backend httptest.ResponseRecorder,
     New (Hsession := mock.env) (fun _ => panic "next") mock.config
       "lambda-plugin"
     = Returns (inl a)
     ∧ functionArn a = FunctionArn mock.config
     ∧ name a = "lambda-plugin"
     ∧ next a = (fun _ => panic "next")
     ∧ lambda.ConfigProvider (client a)
       = {| session.options :=
              {| session.SharedConfigState := session.SharedConfigEnable |} |})
  ∧ New (B := mock.Backend) (W := httptest.ResponseRecorder)
      (Hsession := mock.noSession) (fun _ => panic "next") mock.config
      "lambda-plugin"
    = Panics "SharedConfigLoadError: failed to load config file".
Proof.
  split.
  - apply (proj2 (New_arn (Hsession := mock.env) (fun _ => panic "next")
                    mock.config "lambda-plugin")).
    discriminate.
  - apply (proj2 (New_arn (Hsession := mock.noSession) (fun _ => panic "next")
                    mock.config "lambda-plugin")).
    discriminate.
Defined.

Lemma New_client_witness :
  let a := mock.plugin (fun _ => panic "next") in
  (lambda.Credentials (client a) = None
   ↔ AccessKey mock.config = EmptyString ∨ SecretKey mock.config = EmptyString)
  ∧ (∀ creds, lambda.Credentials (client a) = Some creds →
       creds = (AccessKey mock.config, SecretKey mock.config))
  ∧ (lambda.Region (client a) = None ↔ Region mock.config = EmptyString)
  ∧ (∀ region, lambda.Region (client a) = Some region →
       region = Region mock.config)
  ∧ (lambda.Endpoint (client a) = None ↔ Endpoint mock.config = EmptyString)
  ∧ (∀ endpoint, lambda.Endpoint (client a) = Some endpoint →
       endpoint = Endpoint mock.config).
Proof.
  apply (New_client (Hsession := mock.env) (fun _ => panic "next") mock.config
           "lambda-plugin").
  reflexivity.
Defined.

(** ** Invocation *)

Section Invocation.

Context {B W : Type} `{!lambda.API B} `{!http.ResponseWriter W} `{!json.Codec}.

(** X3.  [invokeFunction] returns a response exactly when the request
    marshals, the one call to the backend, made with the plugin's ARN and the
    marshalled request, answers without error and with status 200, and the
    answer's payload unmarshals; the response is then that unmarshalled
    payload, and nothing but the backend has changed. *)
Theorem invokeFunction_returns (a : AwsLambdaPlugin B W)
    (request : LambdaRequest.t) (w w' : World B W) (resp : LambdaResponse.t) :
  invokeFunction a request w = (Returns resp, w')
  ↔ ∃ payload output,
      json.Marshal request = inl payload
      ∧ lambda.Invoke (client a)
          {| lambda.FunctionName := functionArn a; lambda.Payload := payload |}
          (backend w) = (inl output, backend w')
      ∧ lambda.StatusCode output = Some 200
      ∧ json.Unmarshal (lambda.OutPayload output) = inl resp
      ∧ inbound w' = inbound w
      ∧ outbound w' = outbound w.
Proof.
  unfold invokeFunction, mbind, M_bind, clientInvoke. split.
  - destruct (json.Marshal request) as [payload|err]; [|discriminate].
    destruct (lambda.Invoke _ _ _) as [[output|err] b] eqn:Hinvoke;
      [|discriminate].
    destruct (lambda.StatusCode output) as [code|] eqn:Hcode; [|discriminate].
    case_bool_decide as H200; [|discriminate]. simpl negb. cbv iota.
    destruct (json.Unmarshal _) as [resp'|err] eqn:Hresp; [|discriminate].
    intros [= <- <-]. exists payload, output. by subst code.
  - intros (payload & output & -> & Hinvoke & Hcode & Hresp & Hin & Hout).
    rewrite Hinvoke, Hcode, bool_decide_eq_true_2 by done.
    simpl negb. cbv iota. rewrite Hresp. unfold mret, M_ret.
    destruct w'. simpl in *. by subst.
Qed.

Lemma writerOnly_ret {A} (x : A) : writerOnly (M_ret A x : M B W A).
Proof. by intros w r w' [= <- <-]. Qed.

Lemma writerOnly_panic {A} (err : error) : writerOnly (panic err : M B W A).
Proof. by intros w r w' [= <- <-]. Qed.

Lemma writerOnly_bind {A A'} (m : M B W A) (k : A → M B W A') :
  writerOnly m → (∀ x, writerOnly (k x)) → writerOnly (M_bind A A' k m).
Proof.
  intros Hm Hk w r w'. unfold M_bind.
  destruct (m w) as [[x|err] w1] eqn:Hw1.
  - intros Hw'. destruct (Hm _ _ _ Hw1) as [<- <-]. by eapply Hk.
  - intros [= <- <-]. by eapply Hm.
Qed.

Lemma writerOnly_onWriter {A} (op : W → Outcome A * W) :
  writerOnly (onWriter op : M B W A).
Proof.
  intros w r w'. unfold onWriter. destruct (op (outbound w)).
  by intros [= <- <-].
Qed.

Lemma setHeaders_writerOnly (headers : GoMap string) :
  writerOnly (setHeaders headers : M B W unit).
Proof.
  unfold setHeaders.
  apply (map_fold_weak_ind (fun m _ => writerOnly m)).
  - apply writerOnly_ret.
  - intros key value _ rest _ IH.
    apply writerOnly_bind; [done|]. intros _. apply writerOnly_onWriter.
Qed.

Lemma addHeaders_writerOnly (headers : GoMap (list string)) :
  writerOnly (addHeaders headers : M B W unit).
Proof.
  unfold addHeaders.
  apply (map_fold_weak_ind (fun m _ => writerOnly m)).
  - apply writerOnly_ret.
  - intros key values _ rest _ IH.
    apply writerOnly_bind; [done|]. intros _.
    assert (∀ acc : M B W unit, writerOnly acc →
              writerOnly
                (fold_left
                   (fun (acc : M B W unit) value =>
                      M_bind _ _ (fun _ => rwHeaderAdd key value) acc)
                   values acc)) as Hloop.
    { induction values as [|value values IHv]; intros acc Hacc; [done|].
      apply IHv, writerOnly_bind; [done|].
      intros _. apply writerOnly_onWriter. }
    apply Hloop, writerOnly_ret.
Qed.

Lemma writeResponse_writerOnly (resp : LambdaResponse.t) (body : string) :
  writerOnly (writeResponse resp body : M B W unit).
Proof.
  unfold writeResponse.
  apply writerOnly_bind; [apply setHeaders_writerOnly|]. intros _.
  apply writerOnly_bind; [apply addHeaders_writerOnly|]. intros _.
  apply writerOnly_bind; [apply writerOnly_onWriter|]. intros _.
  apply writerOnly_bind; [apply writerOnly_onWriter|].
  intros [err|]; [apply writerOnly_panic|apply writerOnly_ret].
Qed.

(** The outcome of [ServeHTTP], stage by stage. *)
Lemma ServeHTTP_bodyText (a : AwsLambdaPlugin B W) (req : http.Request)
    (w : World B W) :
  ServeHTTP a req w =
  match requestEnvelope req w with
  | (Panics err, w1) => (Panics err, w1)
  | (Returns env, w1) =>
      match invokeFunction a env w1 with
      | (Panics err, w2) => (Panics err, w2)
      | (Returns resp, w2) =>
          match bodyText resp with
          | None => (Panics "illegal base64 data", w2)
          | Some body => writeResponse resp body w2
          end
      end
  end.
Proof.
  rewrite ServeHTTP_stages.
  destruct (requestEnvelope req w) as [[env|err] w1]; [|done].
  destruct (invokeFunction a env w1) as [[resp|err] w2]; [|done].
  unfold bodyText. destruct (LambdaResponse.IsBase64Encoded resp); [|done].
  by destruct (base64.DecodeString (LambdaResponse.Body resp)).
Qed.

(** X4.  Whatever the outcome of [ServeHTTP], the backend was called at most
    once: it is either as before the request, or as one [Invoke] with the
    plugin's ARN and the marshalled envelope of the request has left it. *)
Theorem ServeHTTP_invokes_once (a : AwsLambdaPlugin B W) (req : http.Request)
    (w w' : World B W) (r : Outcome unit) :
  ServeHTTP a req w = (r, w') →
  backend w' = backend w
  ∨ ∃ env w1 payload,
      requestEnvelope req w = (Returns env, w1)
      ∧ json.Marshal env = inl payload
      ∧ backend w'
        = (lambda.Invoke (client a)
             {| lambda.FunctionName := functionArn a;
                lambda.Payload := payload |}
             (backend w)).2.
Proof.
  rewrite ServeHTTP_bodyText.
  destruct (requestEnvelope req w) as [[env|err] w1] eqn:Henv.
  2:{ intros [= <- <-]. left. by apply (requestEnvelope_frame _ _ _ _ Henv). }
  destruct (requestEnvelope_frame _ _ _ _ Henv) as [Hb1 _].
  assert (∀ r2 w2, invokeFunction a env w1 = (r2, w2) →
            backend w2 = backend w
            ∨ ∃ payload,
                json.Marshal env = inl payload
                ∧ backend w2
                  = (lambda.Invoke (client a)
                       {| lambda.FunctionName := functionArn a;
                          lambda.Payload := payload |}
                       (backend w)).2) as Hinvoke.
  { intros r2 w2. unfold invokeFunction, mbind, M_bind, clientInvoke.
    destruct (json.Marshal env) as [payload|err];
      [|intros [= <- <-]; by left].
    rewrite Hb1.
    destruct (lambda.Invoke _ _ _) as [result b] eqn:Hb.
    intros Hw2. right. exists payload. split; [done|]. rewrite Hb.
    unfold panic, mret, M_ret in Hw2.
    destruct result as [output|err]; [|by injection Hw2 as <- <-].
    destruct (lambda.StatusCode output); [|by injection Hw2 as <- <-].
    destruct (negb _); [by injection Hw2 as <- <-|].
    destruct (json.Unmarshal _); by injection Hw2 as <- <-. }
  destruct (invokeFunction a env w1) as [[resp|err] w2] eqn:Hresp.
  2:{ intros [= <- <-].
      destruct (Hinvoke _ _ eq_refl) as [?|(payload & ? & ?)]; [by left|].
      right. by exists env, w1, payload. }
  intros Hw'.
  assert (backend w' = backend w2) as ->.
  { destruct (bodyText resp) as [body|]; [|by injection Hw' as <- <-].
    by apply (writeResponse_writerOnly _ _ _ _ _ Hw'). }
  destruct (Hinvoke _ _ eq_refl) as [?|(payload & ? & ?)]; [by left|].
  right. by exists env, w1, payload.
Qed.

(** X5.  When reading the body fails, [ServeHTTP] panics with the read
    error before anything else happens: the backend is not called and the
    response writer is not touched. *)
Theorem ServeHTTP_read_failure (a : AwsLambdaPlugin B W) (req : http.Request)
    (w : World B W) (err : error) :
  http.ContentLength req ≠ 0 →
  io.failure (inbound w) = Some err →
  ServeHTTP a req w = (Panics err, drained w).
Proof.
  intros Hlen Hread. rewrite ServeHTTP_stages.
  unfold requestEnvelope, mbind, M_bind.
  by rewrite bodyToBase64_eq, bool_decide_eq_false_2, Hread.
Qed.

(** X6.  [ServeHTTP] ends in one of two ways.  Either it panics with the
    response writer as it was before the request; or the envelope was built,
    the invocation returned a response whose body text could be determined,
    and the outcome is that of writing this response, begun on the untouched
    writer.  So it never returns without having written the response, and
    never writes anything that does not come from one. *)
Theorem ServeHTTP_outcome (a : AwsLambdaPlugin B W) (req : http.Request)
    (w w' : World B W) (r : Outcome unit) :
  ServeHTTP a req w = (r, w') →
  ((∃ err, r = Panics err) ∧ outbound w' = outbound w)
  ∨ ∃ env w1 resp w2 body,
      requestEnvelope req w = (Returns env, w1)
      ∧ invokeFunction a env w1 = (Returns resp, w2)
      ∧ bodyText resp = Some body
      ∧ outbound w2 = outbound w
      ∧ writeResponse resp body w2 = (r, w').
Proof.
  rewrite ServeHTTP_bodyText.
  destruct (requestEnvelope req w) as [[env|err] w1] eqn:Henv.
  2:{ intros [= <- <-]. left. split; [by eexists|].
      by apply (requestEnvelope_frame _ _ _ _ Henv). }
  destruct (requestEnvelope_frame _ _ _ _ Henv) as [_ Hrw1].
  destruct (invokeFunction a env w1) as [[resp|err] w2] eqn:Hresp.
  2:{ intros [= <- <-]. left. split; [by eexists|].
      destruct (invokeFunction_frame _ _ _ _ _ Hresp) as [_ ->]. done. }
  destruct (invokeFunction_frame _ _ _ _ _ Hresp) as [_ Hrw2].
  destruct (bodyText resp) as [body|] eqn:Hbody.
  - intros Hw'. right. exists env, w1, resp, w2, body.
    repeat split; try done. by rewrite Hrw2.
  - intros [= <- <-]. left. split; [by eexists|]. by rewrite Hrw2.
Qed.

End Invocation.

(** ** The response headers *)

Section ResponseHeaders.

Context {B W : Type} `{!http.ResponseWriter W}.

Hypothesis Hkeeps : keepsHeader W.

Lemma rwHeaderSet_header (key value : string) (w : World B W) :
  ∃ w',
    rwHeaderSet key value w = (Returns tt, w')
    ∧ http.RW_Header (outbound w')
      = http.Set_ key value (http.RW_Header (outbound w)).
Proof. eexists. split; [reflexivity|]. simpl. apply Hkeeps. Qed.

Lemma rwHeaderAdd_header (key value : string) (w : World B W) :
  ∃ w',
    rwHeaderAdd key value w = (Returns tt, w')
    ∧ http.RW_Header (outbound w')
      = http.Add key value (http.RW_Header (outbound w)).
Proof. eexists. split; [reflexivity|]. simpl. apply Hkeeps. Qed.

(** The first loop: a name that is alone with its canonical form among
    [headers] has its one value; a canonical key that no name of [headers]
    has keeps what it had. *)
Lemma setHeaders_header (headers : GoMap string) (w : World B W) :
  ∃ w',
    setHeaders headers w = (Returns tt, w')
    ∧ (∀ name value,
         entries headers !! name = Some value →
         (∀ name', is_Some (entries headers !! name') →
            http.CanonicalMIMEHeaderKey name' = http.CanonicalMIMEHeaderKey name →
            name' = name) →
         http.RW_Header (outbound w') !! http.CanonicalMIMEHeaderKey name
         = Some [value])
    ∧ (∀ key,
         (∀ name, is_Some (entries headers !! name) →
            http.CanonicalMIMEHeaderKey name ≠ key) →
         http.RW_Header (outbound w') !! key
         = http.RW_Header (outbound w) !! key).
Proof.
  unfold setHeaders. revert w.
  apply (map_fold_weak_ind
           (fun (act : M B W unit) (m : gmap string string) =>
              ∀ w, ∃ w',
                act w = (Returns tt, w')
                ∧ (∀ name value,
                     m !! name = Some value →
                     (∀ name', is_Some (m !! name') →
                        http.CanonicalMIMEHeaderKey name'
                        = http.CanonicalMIMEHeaderKey name →
                        name' = name) →
                     http.RW_Header (outbound w')
                       !! http.CanonicalMIMEHeaderKey name
                     = Some [value])
                ∧ (∀ key,
                     (∀ name, is_Some (m !! name) →
                        http.CanonicalMIMEHeaderKey name ≠ key) →
                     http.RW_Header (outbound w') !! key
                     = http.RW_Header (outbound w) !! key))).
  - intros w. exists w. split; [done|]. split; [|done].
    intros name value Hname. by rewrite lookup_empty in Hname.
  - intros k v m rest Hk IH w.
    destruct (IH w) as (w1 & Hrest & Hset & Hkept).
    destruct (rwHeaderSet_header k v w1) as (w2 & Hw2 & Hh2).
    exists w2. split; [|split].
    + unfold mbind, M_bind. by rewrite Hrest.
    + intros name value Hname Halone. rewrite Hh2. unfold http.Set_.
      destruct (decide (k = name)) as [->|Hne].
      * rewrite lookup_insert_eq in Hname. injection Hname as ->.
        by rewrite lookup_insert_eq.
      * rewrite lookup_insert_ne in Hname by done.
        rewrite lookup_insert_ne.
        -- apply Hset; [done|]. intros name' Hname' Hcanon.
           apply Halone; [|done].
           destruct (decide (k = name')) as [->|?];
             [by rewrite lookup_insert_eq|by rewrite lookup_insert_ne].
        -- intros Hcanon. apply Hne, Halone; [|done].
           by rewrite lookup_insert_eq.
    + intros key Hnone. rewrite Hh2. unfold http.Set_.
      rewrite lookup_insert_ne.
      * apply Hkept. intros name Hname. apply Hnone.
        destruct (decide (k = name)) as [->|?];
          [by rewrite lookup_insert_eq|by rewrite lookup_insert_ne].
      * apply Hnone. by rewrite lookup_insert_eq.
Qed.

(** Adding the values of one name, in order. *)
Lemma addValues_header (name : string) (values : list string)
    (acc : M B W unit) (w w1 : World B W) :
  acc w = (Returns tt, w1) →
  ∃ w2,
    fold_left
      (fun (sofar : M B W unit) value =>
         M_bind _ _ (fun _ => rwHeaderAdd name value) sofar)
      values acc w
    = (Returns tt, w2)
    ∧ http.RW_Header (outbound w2) !! http.CanonicalMIMEHeaderKey name
      = match values with
        | [] =>
            http.RW_Header (outbound w1) !! http.CanonicalMIMEHeaderKey name
        | _ =>
            Some (default [] (http.RW_Header (outbound w1)
                               !! http.CanonicalMIMEHeaderKey name)
                    ++ values)%list
        end
    ∧ (∀ key, key ≠ http.CanonicalMIMEHeaderKey name →
         http.RW_Header (outbound w2) !! key
         = http.RW_Header (outbound w1) !! key).
Proof.
  revert acc w1. induction values as [|value values IH]; intros acc w1 Hacc.
  - exists w1. by repeat split.
  - destruct (rwHeaderAdd_header name value w1) as (w1' & Hadd & Hh1).
    destruct (IH (M_bind _ _ (fun _ => rwHeaderAdd name value) acc) w1')
      as (w2 & Hw2 & Hat & Hother).
    { unfold M_bind. by rewrite Hacc. }
    exists w2. split; [done|]. split.
    + rewrite Hat, Hh1. unfold http.Add. rewrite lookup_insert_eq. simpl.
      destruct values; [done|]. by rewrite <- app_assoc.
    + intros key Hkey. rewrite Hother, Hh1 by done. unfold http.Add.
      by rewrite lookup_insert_ne.
Qed.

(** The second loop: a name that is alone with its canonical form among
    [headers] has its values appended to what was there; a canonical key
    that no name of [headers] has keeps what it had. *)
Lemma addHeaders_header (headers : GoMap (list string)) (w : World B W) :
  ∃ w',
    addHeaders headers w = (Returns tt, w')
    ∧ (∀ name values,
         entries headers !! name = Some values →
         (∀ name', is_Some (entries headers !! name') →
            http.CanonicalMIMEHeaderKey name' = http.CanonicalMIMEHeaderKey name →
            name' = name) →
         http.RW_Header (outbound w') !! http.CanonicalMIMEHeaderKey name
         = match values with
           | [] =>
               http.RW_Header (outbound w) !! http.CanonicalMIMEHeaderKey name
           | _ =>
               Some (default [] (http.RW_Header (outbound w)
                                  !! http.CanonicalMIMEHeaderKey name)
                       ++ values)%list
           end)
    ∧ (∀ key,
         (∀ name, is_Some (entries headers !! name) →
            http.CanonicalMIMEHeaderKey name ≠ key) →
         http.RW_Header (outbound w') !! key
         = http.RW_Header (outbound w) !! key).
Proof.
  unfold addHeaders. revert w.
  apply (map_fold_weak_ind
           (fun (act : M B W unit) (m : gmap string (list string)) =>
              ∀ w, ∃ w',
                act w = (Returns tt, w')
                ∧ (∀ name values,
                     m !! name = Some values →
                     (∀ name', is_Some (m !! name') →
                        http.CanonicalMIMEHeaderKey name'
                        = http.CanonicalMIMEHeaderKey name →
                        name' = name) →
                     http.RW_Header (outbound w')
                       !! http.CanonicalMIMEHeaderKey name
                     = match values with
                       | [] =>
                           http.RW_Header (outbound w)
                             !! http.CanonicalMIMEHeaderKey name
                       | _ =>
                           Some (default [] (http.RW_Header (outbound w)
                                              !! http.CanonicalMIMEHeaderKey name)
                                   ++ values)%list
                       end)
                ∧ (∀ key,
                     (∀ name, is_Some (m !! name) →
                        http.CanonicalMIMEHeaderKey name ≠ key) →
                     http.RW_Header (outbound w') !! key
                     = http.RW_Header (outbound w) !! key))).
  - intros w. exists w. split; [done|]. split; [|done].
    intros name values Hname. by rewrite lookup_empty in Hname.
  - intros k vs m rest Hk IH w.
    destruct (IH w) as (w1 & Hrest & Hadded & Hkept).
    destruct (addValues_header k vs (M_ret unit tt) w1 w1 eq_refl)
      as (w2 & Hw2 & Hat & Hother).
    exists w2. split; [|split].
    + unfold mbind, M_bind. by rewrite Hrest.
    + intros name values Hname Halone.
      destruct (decide (k = name)) as [->|Hne].
      * rewrite lookup_insert_eq in Hname. injection Hname as ->.
        rewrite Hat, Hkept; [done|].
        intros name' Hname' Hcanon.
        assert (name' = name) as ->.
        { apply Halone; [|done].
          destruct (decide (name = name')) as [->|?];
            [by rewrite lookup_insert_eq|by rewrite lookup_insert_ne]. }
        rewrite Hk in Hname'. by destruct Hname'.
      * rewrite lookup_insert_ne in Hname by done.
        rewrite Hother.
        -- apply Hadded; [done|]. intros name' Hname' Hcanon.
           apply Halone; [|done].
           destruct (decide (k = name')) as [->|?];
             [by rewrite lookup_insert_eq|by rewrite lookup_insert_ne].
        -- intros Hcanon. apply Hne, Halone; [|done].
           by rewrite lookup_insert_eq.
    + intros key Hnone. rewrite Hother.
      * apply Hkept. intros name Hname. apply Hnone.
        destruct (decide (k = name)) as [->|?];
          [by rewrite lookup_insert_eq|by rewrite lookup_insert_ne].
      * intros ->. by apply (Hnone k); [rewrite lookup_insert_eq|].
Qed.

(** X7.  The two header loops of [ServeHTTP], on a writer that keeps its
    header map, always return.  For a name that is alone with its canonical
    form in the response, the header map then has, under that canonical
    form: the single value followed by the multi values, if the name has
    both; the single value alone, or the multi values appended to what the
    writer had, if it has only those; and what the writer had, if it has
    neither or an empty list of multi values. *)
Theorem response_headers (resp : LambdaResponse.t) (name : string)
    (w : World B W) :
  alone resp name →
  ∃ w1 w2,
    setHeaders (LambdaResponse.Headers resp) w = (Returns tt, w1)
    ∧ addHeaders (LambdaResponse.MultiValueHeaders resp) w1 = (Returns tt, w2)
    ∧ http.RW_Header (outbound w2) !! http.CanonicalMIMEHeaderKey name
      = match entries (LambdaResponse.Headers resp) !! name,
              entries (LambdaResponse.MultiValueHeaders resp) !! name with
        | Some value, Some values => Some (value :: values)
        | Some value, None => Some [value]
        | None, Some (v :: values) =>
            Some (default [] (http.RW_Header (outbound w)
                               !! http.CanonicalMIMEHeaderKey name)
                    ++ v :: values)%list
        | None, _ =>
            http.RW_Header (outbound w) !! http.CanonicalMIMEHeaderKey name
        end.
Proof.
  intros Halone.
  destruct (setHeaders_header (LambdaResponse.Headers resp) w)
    as (w1 & Hw1 & Hset & Hkept1).
  destruct (addHeaders_header (LambdaResponse.MultiValueHeaders resp) w1)
    as (w2 & Hw2 & Hadded & Hkept2).
  exists w1, w2. split; [done|]. split; [done|].
  assert (http.RW_Header (outbound w1) !! http.CanonicalMIMEHeaderKey name
          = match entries (LambdaResponse.Headers resp) !! name with
            | Some value => Some [value]
            | None =>
                http.RW_Header (outbound w) !! http.CanonicalMIMEHeaderKey name
            end) as H1.
  { destruct (entries (LambdaResponse.Headers resp) !! name) as [value|]
      eqn:Hname.
    - apply Hset; [done|]. intros name' Hname'. apply Halone. by left.
    - apply Hkept1. intros name' Hname' Hcanon.
      assert (name' = name) as -> by (apply Halone; [by left|done]).
      rewrite Hname in Hname'. by destruct Hname'. }
  destruct (entries (LambdaResponse.MultiValueHeaders resp) !! name)
    as [values|] eqn:Hmulti.
  - rewrite (Hadded name values Hmulti), H1.
    + destruct (entries (LambdaResponse.Headers resp) !! name), values; done.
    + intros name' Hname'. apply Halone. by right.
  - rewrite Hkept2, H1.
    + by destruct (entries (LambdaResponse.Headers resp) !! name).
    + intros name' Hname' Hcanon.
      assert (name' = name) as -> by (apply Halone; [by right|done]).
      rewrite Hmulti in Hname'. by destruct Hname'.
Qed.

End ResponseHeaders.

(** ** The response on the recorder *)

Section Recorded.

Context {B : Type} `{!lambda.API B} `{!json.Codec}.

(** X8.  On a recorder that nothing was written to yet, and for a response
    whose status code has three digits, once the invocation has returned the
    response and its body text is known.  If the status allows a body (it is
    not 1xx, 204 or 304), [ServeHTTP] returns, and the recorder holds that
    status code and, appended to its body, the bytes of the body text.  If
    the status allows no body and the body text is not empty, the status is
    recorded but the write is refused: [ServeHTTP] panics with
    [http.ErrBodyNotAllowed], and no byte of the body is recorded. *)
Theorem ServeHTTP_recorded (a : AwsLambdaPlugin B httptest.ResponseRecorder)
    (req : http.Request) (w w1 w2 : World B httptest.ResponseRecorder)
    (env : LambdaRequest.t) (resp : LambdaResponse.t) (body : string) :
  requestEnvelope req w = (Returns env, w1) →
  invokeFunction a env w1 = (Returns resp, w2) →
  bodyText resp = Some body →
  httptest.wroteHeader (outbound w) = false →
  100 ≤ LambdaResponse.StatusCode resp ≤ 999 →
  ∃ h,
    (httptest.bodyAllowedForStatus (LambdaResponse.StatusCode resp) = true →
     ServeHTTP a req w
     = (Returns tt,
        {| inbound := inbound w2;
           backend := backend w2;
           outbound :=
             {| httptest.Code := LambdaResponse.StatusCode resp;
                httptest.HeaderMap := h;
                httptest.Body :=
                  (httptest.Body (outbound w) ++ list_ascii_of_string body)%list;
                httptest.wroteHeader := true |} |}))
    ∧ (httptest.bodyAllowedForStatus (LambdaResponse.StatusCode resp) = false →
       body ≠ EmptyString →
       ServeHTTP a req w
       = (Panics
            "http: request method or response status code does not allow body",
          {| inbound := inbound w2;
             backend := backend w2;
             outbound :=
               {| httptest.Code := LambdaResponse.StatusCode resp;
                  httptest.HeaderMap := h;
                  httptest.Body := httptest.Body (outbound w);
                  httptest.wroteHeader := true |} |})).
Proof.
  intros Henv Hresp Hbody Hfresh Hcode.
  destruct (requestEnvelope_frame _ _ _ _ Henv) as [_ Hrw1].
  destruct (invokeFunction_frame _ _ _ _ _ Hresp) as [_ Hrw2].
  rewrite Hrw1 in Hrw2.
  rewrite ServeHTTP_bodyText, Henv, Hresp, Hbody.
  destruct (httptest.bodyAllowedForStatus (LambdaResponse.StatusCode resp))
    eqn:Hallowed.
  - destruct (writeResponse_recorded resp body w2) as [h ->];
      [by rewrite Hrw2|done|done|].
    exists h. split; [|done]. intros _. by rewrite Hrw2.
  - destruct (writeResponse_refused resp body w2) as [h ->];
      [by rewrite Hrw2|done|done|].
    exists h. split; [done|]. intros _ _. by rewrite Hrw2.
Qed.

(** X9.  In the same situation but with a status code that does not have
    three digits (0, when the answer has no [statusCode]), [ServeHTTP]
    panics in [WriteHeader]: the headers are set by then, but no status is
    recorded and no byte of the body is written. *)
Theorem ServeHTTP_invalid_status
    (a : AwsLambdaPlugin B httptest.ResponseRecorder)
    (req : http.Request) (w w1 w2 : World B httptest.ResponseRecorder)
    (env : LambdaRequest.t) (resp : LambdaResponse.t) (body : string) :
  requestEnvelope req w = (Returns env, w1) →
  invokeFunction a env w1 = (Returns resp, w2) →
  bodyText resp = Some body →
  httptest.wroteHeader (outbound w) = false →
  LambdaResponse.StatusCode resp < 100 ∨ 999 < LambdaResponse.StatusCode resp →
  ∃ h err,
    ServeHTTP a req w
    = (Panics err,
       {| inbound := inbound w2;
          backend := backend w2;
          outbound :=
            {| httptest.Code := httptest.Code (outbound w);
               httptest.HeaderMap := h;
               httptest.Body := httptest.Body (outbound w);
               httptest.wroteHeader := false |} |}).
Proof.
  intros Henv Hresp Hbody Hfresh Hcode.
  destruct (requestEnvelope_frame _ _ _ _ Henv) as [_ Hrw1].
  destruct (invokeFunction_frame _ _ _ _ _ Hresp) as [_ Hrw2].
  rewrite Hrw1 in Hrw2.
  rewrite ServeHTTP_bodyText, Henv, Hresp, Hbody.
  unfold writeResponse, mbind, M_bind.
  destruct (setHeaders_headersOnly (LambdaResponse.Headers resp) w2)
    as [h1 ->].
  destruct (addHeaders_headersOnly (LambdaResponse.MultiValueHeaders resp)
              (withHeaderMap h1 w2)) as [h2 ->].
  exists h2. eexists. unfold rwWriteHeader, onWriter. simpl.
  unfold httptest.WriteHeader. simpl. rewrite Hrw2, Hfresh.
  assert ((LambdaResponse.StatusCode resp <? 100)
          || (999 <? LambdaResponse.StatusCode resp) = true) as ->; [|done].
  apply orb_true_iff. destruct Hcode; [left|right]; by apply Z.ltb_lt.
Qed.

End Recorded.

(** ** The request side *)

Section RequestSide.

Context {B W : Type}.

(** X10.  The body of an envelope built for a request with a declared
    length other than zero decodes, as base64, to exactly the bytes that the
    request body delivered. *)
Theorem envelope_body_decodes (req : http.Request) (w w' : World B W)
    (env : LambdaRequest.t) :
  requestEnvelope req w = (Returns env, w') →
  http.ContentLength req ≠ 0 →
  base64.DecodeString (LambdaRequest.Body env)
  = Some (concat (io.chunks (inbound w))).
Proof.
  unfold requestEnvelope, mbind, M_bind. rewrite bodyToBase64_eq.
  intros Henv Hlen. rewrite bool_decide_eq_false_2 in Henv by done.
  destruct (io.failure (inbound w)); [discriminate|].
  injection Henv as <- <-. apply DecodeString_Encode.
Qed.

(** The padded encoding has four characters for every three bytes begun. *)
Lemma Encode_length (src : list ascii) :
  String.length (base64.Encode src) = (4 * ((length src + 2) / 3))%nat.
Proof.
  induction src as [|b0|b0 b1|b0 b1 b2 src IH] using list_ind3;
    [reflexivity..|].
  cbn [base64.Encode String.length length]. cbv zeta.
  cbn [String.length]. rewrite IH.
  replace (S (S (S (length src))) + 2)%nat with (1 * 3 + (length src + 2))%nat
    by lia.
  rewrite Nat.div_add_l by lia. lia.
Qed.

(** X16.  The body of such an envelope is padded base64: its length is four
    characters for every three bytes of the request body, the last, partial
    group of bytes included. *)
Theorem envelope_body_length (req : http.Request) (w w' : World B W)
    (env : LambdaRequest.t) :
  requestEnvelope req w = (Returns env, w') →
  http.ContentLength req ≠ 0 →
  String.length (LambdaRequest.Body env)
  = (4 * ((length (concat (io.chunks (inbound w))) + 2) / 3))%nat.
Proof.
  unfold requestEnvelope, mbind, M_bind. rewrite bodyToBase64_eq.
  intros Henv Hlen. rewrite bool_decide_eq_false_2 in Henv by done.
  destruct (io.failure (inbound w)); [discriminate|].
  injection Henv as <- <-. apply Encode_length.
Qed.

End RequestSide.

(** X11.  On any [url.Values], [valuesToMap] and [valuesToMultiMap] split the
    names by the number of their values: a name with exactly one value is in
    the single map only, with that value; every other name of the input is
    in the multi map only, with its values as they are, also when it has
    none; a name that is not in the input is in neither. *)
Theorem query_values_partition (i : url.Values) (name : string) :
  match i !! name with
  | Some [value] =>
      entries (valuesToMap i) !! name = Some value
      ∧ entries (valuesToMultiMap i) !! name = None
  | Some values =>
      entries (valuesToMap i) !! name = None
      ∧ entries (valuesToMultiMap i) !! name = Some values
  | None =>
      entries (valuesToMap i) !! name = None
      ∧ entries (valuesToMultiMap i) !! name = None
  end.
Proof.
  rewrite valuesToMap_lookup, valuesToMultiMap_lookup.
  by destruct (i !! name) as [[|v1 [|v2 rest]]|].
Qed.

(** X12.  The envelope neither loses nor invents a name: its two query maps
    hold, between them, exactly the names of the parsed query, and its two
    header maps exactly the header names that have at least one value. *)
Theorem envelope_names_kept
    (req : http.Request) (base64Encoded : bool) (body : string)
    (name : string) :
  let env := envelope req base64Encoded body in
  (name ∈ dom (entries (LambdaRequest.QueryStringParameters env))
            ∪ dom (entries (LambdaRequest.MultiValueQueryStringParameters env))
   ↔ name ∈ dom (http.URL_Query req))
  ∧ (name ∈ dom (entries (LambdaRequest.Headers env))
              ∪ dom (entries (LambdaRequest.MultiValueHeaders env))
     ↔ ∃ headers,
         entries (http.Req_Header req) !! name = Some headers
         ∧ headers ≠ []).
Proof.
  simpl LambdaRequest.QueryStringParameters.
  simpl LambdaRequest.MultiValueQueryStringParameters.
  simpl LambdaRequest.Headers. simpl LambdaRequest.MultiValueHeaders.
  cbv zeta. rewrite !elem_of_union, !elem_of_dom.
  rewrite valuesToMap_lookup, valuesToMultiMap_lookup.
  rewrite headersToMap_lookup, headersToMultiMap_lookup.
  split.
  - destruct (http.URL_Query req !! name) as [[|v1 [|v2 rest]]|]; simpl;
      split; intros; try done; eauto;
      destruct_or?; by destruct_and?.
  - destruct (entries (http.Req_Header req) !! name) as [[|v1 [|v2 rest]]|];
      simpl; split.
    all: try (intros [[? [=]]|[? [=]]]; fail).
    all: try (intros (headers & [=] & Hne); subst; done).
    all: try (intros _; by eexists).
    all: intros _; eauto.
Qed.

(** X13.  On a well-typed sequence whose element kind is one that
    [valuesToStrings] lets through, no element is skipped: the result has
    the length of the sequence and, at each position, the string that
    [valueToString] makes of the element there. *)
Theorem sequence_in_order (elem : reflect.Kind) (s : list reflect.Value) :
  sequenceElem elem = true →
  reflect.wellTyped (reflect.SliceVal elem s) = true →
  ∃ t,
    valuesToStrings (reflect.SliceVal elem s) = (t, true)
    ∧ length t = length s
    ∧ ∀ (n : nat) x,
        s !! n = Some x →
        valueToString x = (default EmptyString (t !! n), true).
Proof.
  intros Helem Hwt. eexists. split; [by apply valuesToStrings_ok|].
  split; [by rewrite length_fmap|].
  intros n x Hx. rewrite list_lookup_fmap, Hx. simpl.
  assert (reflect.KindOf x = elem) as Hkind.
  { simpl in Hwt. rewrite forallb_forall in Hwt.
    specialize (Hwt x). apply list_elem_of_lookup_2, list_elem_of_In in Hx.
    apply Hwt, andb_prop in Hx as [Hx _].
    apply orb_prop in Hx as [Hx|Hx]; apply bool_decide_eq_true in Hx; [|done].
    by rewrite Hx in Helem. }
  pose proof (valueToString_scalar x) as Hvalid. rewrite Hkind in Hvalid.
  destruct (valueToString x) as [conv valid]. simpl in *.
  by rewrite (Hvalid Helem).
Qed.

(** X14.  The collapsing rule as [valueToString] has it: a well-typed
    sequence of such an element kind is coerced exactly when it has one
    element, and then to what that element is coerced to; an empty sequence
    and a sequence of two or more elements report failure. *)
Theorem collapse_rule (elem : reflect.Kind) (s : list reflect.Value) :
  sequenceElem elem = true →
  reflect.wellTyped (reflect.SliceVal elem s) = true →
  valueToString (reflect.SliceVal elem s)
  = match s with
    | [x] => valueToString x
    | _ => (EmptyString, false)
    end
  ∧ ((valueToString (reflect.SliceVal elem s)).2 = true ↔ length s = 1%nat).
Proof.
  intros Helem Hwt. destruct s as [|x [|y s]].
  - by rewrite valueToString_slice, valuesToStrings_slice, Helem.
  - assert (reflect.KindOf x = elem) as Hkind.
    { simpl in Hwt. rewrite andb_true_r in Hwt.
      apply andb_prop in Hwt as [Hx _].
      apply orb_prop in Hx as [Hx|Hx]; apply bool_decide_eq_true in Hx;
        [|done].
      by rewrite Hx in Helem. }
    rewrite collapse_one by done. split; [done|].
    split; [done|]. intros _. apply valueToString_scalar. by rewrite Hkind.
  - rewrite collapse_many by done. by split.
Qed.

(** X15.  A coercion that reports failure returns nothing else: the string
    is empty when [valueToString] fails, and the sequence is empty when
    [valuesToStrings] fails, for every value. *)
Theorem failure_is_empty (f : reflect.Value) :
  ((valueToString f).2 = false → (valueToString f).1 = EmptyString)
  ∧ ((valuesToStrings f).2 = false → (valuesToStrings f).1 = []).
Proof.
  split.
  - rewrite valueToString_eq.
    destruct (reflect.KindOf f); simpl; try done.
    destruct (valuesToStrings f) as [t valid].
    by destruct (negb valid || _).
  - destruct f as [| | | |elem s|]; try done.
    rewrite valuesToStrings_slice. by destruct (sequenceElem elem).
Qed.

(** X17.  What the coercion accepts.  [valuesToStrings] succeeds on exactly
    the sequences whose element kind is in its case list.  On a well-typed
    value [valueToString] succeeds on exactly the integers, floats and
    strings, and the sequences of one element whose element kind is in that
    list; every other value reports failure, a sequence of interfaces or of
    sequences with one element included. *)
Theorem coercion_accepts (f : reflect.Value) :
  reflect.wellTyped f = true →
  ((valuesToStrings f).2 = true
   ↔ ∃ elem s, f = reflect.SliceVal elem s ∧ sequenceElem elem = true)
  ∧ ((valueToString f).2 = true
     ↔ scalarKind (reflect.KindOf f) = true
       ∨ ∃ elem x, f = reflect.SliceVal elem [x] ∧ sequenceElem elem = true).
Proof.
  intros Hwt. split; split.
  - destruct f as [| | | |elem s|]; try discriminate.
    rewrite valuesToStrings_slice.
    destruct (sequenceElem elem) eqn:Helem; [eauto|discriminate].
  - intros (elem & s & -> & Helem). by rewrite valuesToStrings_slice, Helem.
  - intros Hok. destruct (scalarKind (reflect.KindOf f)) eqn:Hk; [by left|].
    right. destruct f as [k i|k u|k x|str|elem s|k];
      try (rewrite valueToString_eq in Hok; destruct k; discriminate).
    + discriminate.
    + destruct (sequenceElem elem) eqn:Helem.
      * destruct s as [|x [|y s]]; [|by eauto|].
        -- rewrite valueToString_slice, valuesToStrings_slice, Helem in Hok.
           discriminate.
        -- rewrite collapse_many in Hok by done. discriminate.
      * rewrite valueToString_slice, valuesToStrings_refused in Hok by done.
        discriminate.
  - intros [Hk|(elem & x & -> & Helem)].
    + rewrite valueToString_eq.
      destruct (reflect.KindOf f); try discriminate; reflexivity.
    + assert (reflect.KindOf x = elem) as Hkind.
      { simpl in Hwt. rewrite andb_true_r in Hwt.
        apply andb_prop in Hwt as [Hx _].
        apply orb_prop in Hx as [Hx|Hx]; apply bool_decide_eq_true in Hx;
          [|done].
        by rewrite Hx in Helem. }
      rewrite collapse_one by done.
      apply valueToString_scalar. by rewrite Hkind.
Qed.

(** ** The extras at work *)

Lemma ServeHTTP_invokes_once_witness :
  let w := mock.world [mock.refusedAnswer] in
  let w' : World mock.Backend httptest.ResponseRecorder :=
    {| inbound := mock.readToEnd;
       backend := {| mock.script := []; mock.calls := [mock.sentInput] |};
       outbound := httptest.NewRecorder |} in
  backend w' = backend w
  ∨ ∃ env w1 payload,
      requestEnvelope mock.request w = (Returns env, w1)
      ∧ json.Marshal env = inl payload
      ∧ backend w'
        = (lambda.Invoke (client (mock.plugin (fun _ => panic "next")))
             {| lambda.FunctionName :=
                  functionArn (mock.plugin (fun _ => panic "next"));
                lambda.Payload := payload |}
             (backend w)).2.
Proof.
  apply (ServeHTTP_invokes_once (mock.plugin (fun _ => panic "next"))
           mock.request (mock.world [mock.refusedAnswer]) _
           (Panics "call to lambda failed")).
  vm_compute. reflexivity.
Defined.

Lemma ServeHTTP_read_failure_witness :
  ServeHTTP (mock.plugin (fun _ => panic "next")) mock.request mock.brokenWorld
  = (Panics "unexpected EOF", drained mock.brokenWorld).
Proof.
  apply ServeHTTP_read_failure; [discriminate|reflexivity].
Defined.

Lemma ServeHTTP_outcome_witness :
  let w := mock.world [mock.encodedAnswer] in
  let w' : World mock.Backend httptest.ResponseRecorder :=
    {| inbound := mock.readToEnd;
       backend := {| mock.script := []; mock.calls := [mock.sentInput] |};
       outbound :=
         {| httptest.Code := 200; httptest.HeaderMap := ∅;
            httptest.Body := list_ascii_of_string "hi";
            httptest.wroteHeader := true |} |} in
  ((∃ err, Returns tt = Panics err) ∧ outbound w' = outbound w)
  ∨ ∃ env w1 resp w2 body,
      requestEnvelope mock.request w = (Returns env, w1)
      ∧ invokeFunction (mock.plugin (fun _ => panic "next")) env w1
        = (Returns resp, w2)
      ∧ bodyText resp = Some body
      ∧ outbound w2 = outbound w
      ∧ writeResponse resp body w2 = (Returns tt, w').
Proof.
  apply (ServeHTTP_outcome (mock.plugin (fun _ => panic "next"))
           mock.request (mock.world [mock.encodedAnswer])).
  vm_compute. reflexivity.
Defined.

Lemma recorder_keepsHeader : keepsHeader httptest.ResponseRecorder.
Proof. by intros h rw. Qed.

Lemma response_headers_witness :
  ∃ w1 w2,
    setHeaders (LambdaResponse.Headers mock.headerResponse) (mock.world [])
    = (Returns tt, w1)
    ∧ addHeaders (LambdaResponse.MultiValueHeaders mock.headerResponse) w1
      = (Returns tt, w2)
    ∧ http.RW_Header (outbound w2) !! "X-Test" = Some ["a"; "b"; "c"].
Proof.
  apply (response_headers recorder_keepsHeader mock.headerResponse "x-test"
           (mock.world [])).
  intros name' [[v Hname']|[v Hname']] _;
    unfold mock.headerResponse in Hname';
    cbn [LambdaResponse.Headers LambdaResponse.MultiValueHeaders] in Hname';
    rewrite entries_Some in Hname';
    by apply lookup_singleton_Some in Hname' as [<- _].
Defined.

Lemma ServeHTTP_recorded_witness :
  (∃ h,
     ServeHTTP (mock.plugin (fun _ => panic "next")) mock.request
       (mock.world [mock.encodedAnswer])
     = (Returns tt,
        {| inbound := mock.readToEnd;
           backend := {| mock.script := []; mock.calls := [mock.sentInput] |};
           outbound :=
             {| httptest.Code := 200; httptest.HeaderMap := h;
                httptest.Body := list_ascii_of_string "hi";
                httptest.wroteHeader := true |} |}))
  ∧ (∃ h,
       ServeHTTP (H1 := mock.noContentCodec)
         (mock.plugin (fun _ => panic "next")) mock.request
         (mock.world [mock.plainAnswer])
       = (Panics
            "http: request method or response status code does not allow body",
          {| inbound := mock.readToEnd;
             backend :=
               {| mock.script := []; mock.calls := [mock.sentInput] |};
             outbound :=
               {| httptest.Code := 204; httptest.HeaderMap := h;
                  httptest.Body := [];
                  httptest.wroteHeader := true |} |})).
Proof.
  split.
  - destruct (ServeHTTP_recorded (mock.plugin (fun _ => panic "next"))
                mock.request
                (mock.world [mock.encodedAnswer])
                (drained (mock.world [mock.encodedAnswer]))
                {| inbound := mock.readToEnd;
                   backend :=
                     {| mock.script := []; mock.calls := [mock.sentInput] |};
                   outbound := httptest.NewRecorder |}
                (envelope mock.request true "VGhpcyBpcyB0aGUgYm9keQ==")
                {| LambdaResponse.StatusCode := 200;
                   LambdaResponse.StatusDescription := EmptyString;
                   LambdaResponse.IsBase64Encoded := true;
                   LambdaResponse.Headers := None;
                   LambdaResponse.MultiValueHeaders := None;
                   LambdaResponse.Body := "aGk=" |}
                "hi") as (h & Hallowed & _);
      [reflexivity| reflexivity| reflexivity| reflexivity| simpl; lia|].
    exists h. apply Hallowed. reflexivity.
  - destruct (ServeHTTP_recorded (H0 := mock.noContentCodec)
                (mock.plugin (fun _ => panic "next"))
                mock.request
                (mock.world [mock.plainAnswer])
                (drained (mock.world [mock.plainAnswer]))
                {| inbound := mock.readToEnd;
                   backend :=
                     {| mock.script := []; mock.calls := [mock.sentInput] |};
                   outbound := httptest.NewRecorder |}
                (envelope mock.request true "VGhpcyBpcyB0aGUgYm9keQ==")
                {| LambdaResponse.StatusCode := 204;
                   LambdaResponse.StatusDescription := EmptyString;
                   LambdaResponse.IsBase64Encoded := false;
                   LambdaResponse.Headers := None;
                   LambdaResponse.MultiValueHeaders := None;
                   LambdaResponse.Body := "x" |}
                "x") as (h & _ & Hrefused);
      [reflexivity| reflexivity| reflexivity| reflexivity| simpl; lia|].
    exists h. apply Hrefused; [reflexivity|discriminate].
Defined.

Lemma ServeHTTP_invalid_status_witness :
  ∃ h err,
    ServeHTTP (H1 := mock.bareCodec) (mock.plugin (fun _ => panic "next"))
      mock.request (mock.world [mock.plainAnswer])
    = (Panics err,
       {| inbound := mock.readToEnd;
          backend := {| mock.script := []; mock.calls := [mock.sentInput] |};
          outbound :=
            {| httptest.Code := 200; httptest.HeaderMap := h;
               httptest.Body := [];
               httptest.wroteHeader := false |} |}).
Proof.
  apply (ServeHTTP_invalid_status (H0 := mock.bareCodec)
           (mock.plugin (fun _ => panic "next")) mock.request
           (mock.world [mock.plainAnswer])
           (drained (mock.world [mock.plainAnswer]))
           {| inbound := mock.readToEnd;
              backend :=
                {| mock.script := []; mock.calls := [mock.sentInput] |};
              outbound := httptest.NewRecorder |}
           (envelope mock.request true "VGhpcyBpcyB0aGUgYm9keQ==")
           {| LambdaResponse.StatusCode := 0;
              LambdaResponse.StatusDescription := EmptyString;
              LambdaResponse.IsBase64Encoded := false;
              LambdaResponse.Headers := None;
              LambdaResponse.MultiValueHeaders := None;
              LambdaResponse.Body := EmptyString |}
           EmptyString).
  - reflexivity.
  - reflexivity.
  - reflexivity.
  - reflexivity.
  - left. simpl. lia.
Defined.

Lemma envelope_body_decodes_witness :
  base64.DecodeString "VGhpcyBpcyB0aGUgYm9keQ=="
  = Some (list_ascii_of_string "This is the body").
Proof.
  apply (envelope_body_decodes mock.request (mock.world [])
           (drained (mock.world []))
           (envelope mock.request true "VGhpcyBpcyB0aGUgYm9keQ==")).
  - reflexivity.
  - discriminate.
Defined.

Lemma sequence_in_order_witness :
  ∃ t,
    valuesToStrings
      (reflect.SliceVal reflect.Int8
         [reflect.IntVal reflect.Int8 1; reflect.IntVal reflect.Int8 (-2)])
    = (t, true)
    ∧ length t = 2%nat
    ∧ ∀ (n : nat) x,
        [reflect.IntVal reflect.Int8 1; reflect.IntVal reflect.Int8 (-2)] !! n
        = Some x →
        valueToString x = (default EmptyString (t !! n), true).
Proof. apply sequence_in_order; reflexivity. Defined.

Lemma collapse_rule_witness :
  let f :=
    reflect.SliceVal reflect.Float64
      [reflect.FloatVal reflect.Float64 float64_3_14159] in
  valueToString f
  = valueToString (reflect.FloatVal reflect.Float64 float64_3_14159)
  ∧ ((valueToString f).2 = true ↔ 1%nat = 1%nat).
Proof.
  apply (collapse_rule reflect.Float64
           [reflect.FloatVal reflect.Float64 float64_3_14159]);
    reflexivity.
Defined.

Lemma failure_is_empty_witness :
  (valueToString (reflect.SliceVal reflect.String [])).1 = EmptyString
  ∧ (valuesToStrings (reflect.OtherVal reflect.Map)).1 = [].
Proof.
  split.
  - apply (proj1 (failure_is_empty (reflect.SliceVal reflect.String []))).
    reflexivity.
  - apply (proj2 (failure_is_empty (reflect.OtherVal reflect.Map))).
    reflexivity.
Defined.

Lemma envelope_body_length_witness :
  String.length "VGhpcyBpcyB0aGUgYm9keQ==" = 24%nat.
Proof.
  apply (envelope_body_length mock.request (mock.world [])
           (drained (mock.world []))
           (envelope mock.request true "VGhpcyBpcyB0aGUgYm9keQ==")).
  - reflexivity.
  - discriminate.
Defined.

Lemma coercion_accepts_witness :
  let f := reflect.SliceVal reflect.Interface [reflect.IntVal reflect.Int 1] in
  ((valuesToStrings f).2 = true
   ↔ ∃ elem s, f = reflect.SliceVal elem s ∧ sequenceElem elem = true)
  ∧ ((valueToString f).2 = true
     ↔ scalarKind (reflect.KindOf f) = true
       ∨ ∃ elem x, f = reflect.SliceVal elem [x] ∧ sequenceElem elem = true).
Proof.
  apply (coercion_accepts
           (reflect.SliceVal reflect.Interface [reflect.IntVal reflect.Int 1])).
  reflexivity.
Defined.
